(** * BaanCHECK: the checkpoint verification engine and the pull protocol

    A shallow embedding of the decision code of the patrol application:
    - [types.ts]: the records and enumerations;
    - [utils.ts]: [calculateDistance];
    - [components/Scanner.tsx]: [handleSimulatedScan], [handleFinalSubmit];
    - [App.tsx]: [loadCloudData], [handleScanComplete];
    - [services/sheetService.ts]: [sendToSheet], [saveLogToSheet].

    A handler is a function from the world before the event to the
    world after it.  What the handler awaits (the location reading, the
    answer of the sheet) and what it reads from the browser (the clock,
    whether the component is still mounted) are its arguments.

    Numbers.  Hours, minutes and epoch milliseconds are whole numbers
    and are kept in [Z].  A tolerance or an interval read from the
    registry is a finite double, that is a rational, and is kept in [Q]
    so that the time check computes.  Latitudes, longitudes, accuracies,
    radii and distances are kept in [R]: the haversine formula is read
    over the real numbers, with exact [sin], [cos], [sqrt] and [atan].
    The verdict of a scan only compares the distance with the radius, so
    what is proved of it holds for every value of the distance.  Where
    the rounding of the machine arithmetic decides, the formula is read
    once more in [Double], over the binary64 numbers. *)

From Stdlib Require Import ZArith QArith Qabs List String Ascii Bool Lia.
From Stdlib Require Import DecimalString Reals Lra.
From Stdlib Require Floats.
Import ListNotations.

Local Open Scope string_scope.
Local Open Scope Z_scope.

(** ** types.ts *)

Inductive Role := ADMIN | OFFICER.

Record Coordinates := mkCoordinates {
  latitude : R;
  longitude : R;
  accuracy : option R        (* GPS accuracy in meters, optional *)
}.

Inductive ScheduleType := NONE | FIXED_TIME | INTERVAL.

Record ScheduleConfig := mkScheduleConfig {
  type : ScheduleType;
  fixedTimes : option (list string);
  intervalMinutes : option Q;
  toleranceMinutes : option Q
}.

Record Checkpoint := mkCheckpoint {
  cp_id : string;
  cp_name : string;
  location : Coordinates;
  allowedRadiusMeters : R;
  schedule : option ScheduleConfig
}.

Inductive ScanStatus :=
  VALID | INVALID_LOCATION | INVALID_TIME | LATE | ISSUE_REPORTED.

(** The note of a record is a template string in the source; the
    templates are kept apart from their arguments here, because the
    rendering of a number as text plays no part in any verdict.
    [WrongTime ts tol] is
    "Wrong Time. Schedule: <ts joined by ", "> (+/- <tol>m)",
    [WeakGPS acc] is "Weak GPS (Acc: <round acc>m). Verified by QR.",
    [LocationMismatch d] is "Location Mismatch. Dist: <round d>m",
    [RoutineCheckOK] is "Routine Check: OK", [EmptyNote] is "" and
    [Typed s] is text entered by the officer. *)
Inductive Note :=
| EmptyNote
| RoutineCheckOK
| WrongTime (times : list string) (tolerance : Q)
| WeakGPS (acc : R)
| LocationMismatch (dist : R)
| Typed (text : string).

Record ScanLog := mkScanLog {
  log_id : string;
  checkpointId : string;
  checkpointName : string;
  officerId : string;
  timestamp : Z;
  status : ScanStatus;
  note : option Note;
  userLocation : option Coordinates;
  distanceFromTarget : option R;
  evidencePhotoUrl : option string
}.

Record User := mkUser {
  user_id : string;
  user_name : string;
  role : Role
}.

(** ** JavaScript primitives used by the time check *)

Module Js.

(** [s.split(sep)] for a one-character separator: never the empty
    list; the empty string splits into one empty piece. *)
Fixpoint split (sep : ascii) (s : string) : list string :=
  match s with
  | EmptyString => [EmptyString]
  | String c rest =>
      if Ascii.eqb c sep then EmptyString :: split sep rest
      else match split sep rest with
           | piece :: pieces => String c piece :: pieces
           | [] => [String c EmptyString]
           end
  end.

Definition digit (c : ascii) : option Z :=
  let n := Z.of_nat (nat_of_ascii c) in
  if (48 <=? n) && (n <=? 57) then Some (n - 48) else None.

Fixpoint digits (acc : Z) (s : string) : option Z :=
  match s with
  | EmptyString => Some acc
  | String c rest =>
      match digit c with
      | Some d => digits (acc * 10 + d) rest
      | None => None
      end
  end.

(** [Number(s)] on a string.  [None] is NaN.  A run of ASCII decimal
    digits is read in base ten (exactly, as long as the value is below
    2^53) and the empty string is 0, as in JavaScript; a string with a
    character that no numeric literal has is NaN.  The other numeric
    literals of the language (white
    space, sign, fraction, exponent, radix prefix, Infinity) do not
    occur in an "HH:mm" time and are not modelled: every statement
    below that depends on the value read from a time string assumes
    the string is a well-formed time of day. *)
Definition Number (s : string) : option Z := digits 0 s.

(** [n.toString()] of a whole number: its decimal numeral. *)
Definition toString (n : Z) : string :=
  NilZero.string_of_int (Z.to_int n).

(** [x || d] on an optional number: [undefined], 0 (and NaN, which a
    rational cannot be) are falsy. *)
Definition orQ (x : option Q) (d : Q) : Q :=
  match x with
  | Some q => if Qeq_bool q 0 then d else q
  | None => d
  end.

End Js.

(** ** components/Scanner.tsx: the time check (lines 732-751) *)

(** What [new Date()] gives to the handler: the local hour and minute,
    and the epoch milliseconds that [Date.now()] returns. *)
Record Date := mkDate {
  getHours : Z;
  getMinutes : Z;
  getTime : Z
}.

Definition currentMinutes (now : Date) : Z :=
  getHours now * 60 + getMinutes now.

(** [const [h, m] = timeStr.split(':').map(Number); h * 60 + m]:
    a missing piece is [undefined] and the sum is then NaN. *)
Definition targetMinutes (timeStr : string) : option Z :=
  match map Js.Number (Js.split ":" timeStr) with
  | Some h :: Some m :: _ => Some (h * 60 + m)
  | _ => None
  end.

(** The callback of [fixedTimes.some]: a comparison with NaN is false. *)
Definition inWindow (current : Z) (tolerance : Q) (timeStr : string) : bool :=
  match targetMinutes timeStr with
  | Some target => Qle_bool (inject_Z (Z.abs (current - target))) tolerance
  | None => false
  end.

Definition toleranceOf (s : ScheduleConfig) : Q :=
  Js.orQ (toleranceMinutes s) 10.

Inductive TimeStatus := TIME_VALID | TIME_INVALID.

(** Lines 732-751: [(timeStatus, timeNote)] after the time check. *)
Definition timeCheck (sched : option ScheduleConfig) (now : Date)
  : TimeStatus * Note :=
  match sched with
  | Some s =>
      match type s, fixedTimes s with
      | FIXED_TIME, Some times =>
          let tolerance := toleranceOf s in
          let isValidTime := existsb (inWindow (currentMinutes now) tolerance) times in
          if negb isValidTime
          then (TIME_INVALID, WrongTime times tolerance)
          else (TIME_VALID, EmptyNote)
      | _, _ => (TIME_VALID, EmptyNote)
      end
  | None => (TIME_VALID, EmptyNote)
  end.

(** ** utils.ts *)

Local Open Scope R_scope.

(** [Math.atan2(y, x)] over the reals. *)
Definition atan2 (y x : R) : R :=
  if Rlt_dec 0 x then atan (y / x)
  else if Rlt_dec x 0 then
         if Rle_dec 0 y then atan (y / x) + PI else atan (y / x) - PI
  else if Rlt_dec 0 y then PI / 2
  else if Rlt_dec y 0 then - (PI / 2)
  else 0.

(** The [a] of the haversine formula (lines 9-19). *)
Definition haversine (coords1 coords2 : Coordinates) : R :=
  let lat1 := latitude coords1 * PI / 180 in
  let lat2 := latitude coords2 * PI / 180 in
  let deltaLat := (latitude coords2 - latitude coords1) * PI / 180 in
  let deltaLon := (longitude coords2 - longitude coords1) * PI / 180 in
  sin (deltaLat / 2) * sin (deltaLat / 2) +
  cos lat1 * cos lat2 * sin (deltaLon / 2) * sin (deltaLon / 2).

(** Distance between two points in meters (lines 4-24), the formula
    over the real numbers; [Double.calculateDistance] below is the
    function as it runs. *)
Definition calculateDistance (coords1 coords2 : Coordinates) : R :=
  let R := 6371000 in
  let a := haversine coords1 coords2 in
  let c := 2 * atan2 (sqrt a) (sqrt (1 - a)) in
  R * c.

(** [calculateDistance] as it runs: the numbers are IEEE 754 binary64
    numbers and [*], [/], [+], [-] and [sqrt] are their correctly
    rounded operations.  [Math.sin], [Math.cos] and [Math.atan2] are
    approximations that the language leaves to its implementation: they
    are the fields of [Math]. *)
Module Double.

Import Floats.
Local Open Scope float_scope.

Record Math := mkMath {
  sin : float -> float;
  cos : float -> float;
  atan2 : float -> float -> float
}.

(** [Math.PI]. *)
Definition PI : float := 0x1.921fb54442d18p+1.

Record Coordinates := mkCoordinates {
  latitude : float;
  longitude : float;
  accuracy : option float
}.

(** Lines 4-24 of utils.ts. *)
Definition calculateDistance (M : Math) (coords1 coords2 : Coordinates)
  : float :=
  let R := 6371000 in
  let lat1 := (latitude coords1 * PI) / 180 in
  let lat2 := (latitude coords2 * PI) / 180 in
  let deltaLat := ((latitude coords2 - latitude coords1) * PI) / 180 in
  let deltaLon := ((longitude coords2 - longitude coords1) * PI) / 180 in
  let a :=
    sin M (deltaLat / 2) * sin M (deltaLat / 2)
    + cos M lat1 * cos M lat2 * sin M (deltaLon / 2) * sin M (deltaLon / 2) in
  let c := 2 * atan2 M (sqrt a) (sqrt (1 - a)) in
  R * c.

(** Two points of the earth opposite each other. *)
Definition north8 : Coordinates := mkCoordinates 8 0 None.
Definition south8 : Coordinates := mkCoordinates (-8) 180 None.

(** A library that has, at the arguments that these two points lead
    to, the values that the fdlibm and the glibc implementations of
    sine and cosine return there (the sine and cosine of 8 degrees and
    of a right angle), and that returns NaN for an arctangent of NaN as
    the language requires.  Elsewhere it is a stand-in. *)
Definition tabulated : Math :=
  mkMath
    (fun x =>
       if x =? 0x1.921fb54442d18p+0 then 1
       else if x =? -0x1.1df46a2529d39p-3 then -0x1.1d06c968d9e19p-3
       else x)
    (fun x =>
       if abs x =? 0x1.1df46a2529d39p-3 then 0x1.fb046a930947ap-1 else 1)
    (fun y x => if is_nan x || is_nan y then nan else y).

End Double.

(** ** The state of the application *)

Definition Rleb (x y : R) : bool := if Rle_dec x y then true else false.
Definition Rgtb (x y : R) : bool := if Rgt_dec x y then true else false.

(** [x || d] on an optional real: [undefined] and 0 are falsy. *)
Definition orR (x : option R) (d : R) : R :=
  match x with
  | Some r => if Req_dec_T r 0 then d else r
  | None => d
  end.

Definition truthyR (x : option R) : bool :=
  match x with
  | Some r => if Req_dec_T r 0 then false else true
  | None => false
  end.

Inductive View := dashboard | scanner_view | admin_setup.

(** The payload of a request to the sheet, by its [action] tag. *)
Inductive SheetAction :=
| LOG (log : ScanLog)
| ADD_OFFICER (officer : User)
| REMOVE_OFFICER (id : string)
| ADD_CHECKPOINT (checkpoint : Checkpoint).

(** State of the [App] component. *)
Record AppState := mkAppState {
  currentView : View;
  logs : list ScanLog;
  initialScanId : option string;
  isSyncing : bool;
  lastSyncTime : option Z;
  checkpoints : list Checkpoint;
  officers : list User
}.

(** State of the [Scanner] component. *)
Record ScannerState := mkScannerState {
  processing : bool;
  gpsLoading : bool;
  currentAccuracy : option R;
  pendingLog : option ScanLog;
  noteText : Note;
  hasPhoto : bool;
  selectedOfficerId : string;
  hasAutoScanned : bool
}.

(** Both components, the module variable of the sheet service, and the
    effects on the browser: the alerts shown and the requests posted to
    the sheet, oldest first. *)
Record World := mkWorld {
  app : AppState;
  scanner : ScannerState;
  GOOGLE_SCRIPT_URL : string;
  alerts : list string;
  posted : list SheetAction
}.

Definition withApp (f : AppState -> AppState) (w : World) : World :=
  mkWorld (f (app w)) (scanner w) (GOOGLE_SCRIPT_URL w) (alerts w) (posted w).

Definition withScanner (f : ScannerState -> ScannerState) (w : World) : World :=
  mkWorld (app w) (f (scanner w)) (GOOGLE_SCRIPT_URL w) (alerts w) (posted w).

Definition alert (message : string) (w : World) : World :=
  mkWorld (app w) (scanner w) (GOOGLE_SCRIPT_URL w)
          (alerts w ++ [message]) (posted w).

(** [sendToSheet]: nothing is posted without a script URL. *)
Definition sendToSheet (payload : SheetAction) (w : World) : World :=
  if String.eqb (GOOGLE_SCRIPT_URL w) "" then w
  else mkWorld (app w) (scanner w) (GOOGLE_SCRIPT_URL w)
               (alerts w) (posted w ++ [payload]).

Definition setProcessing (b : bool) (s : ScannerState) : ScannerState :=
  mkScannerState b (gpsLoading s) (currentAccuracy s) (pendingLog s)
                 (noteText s) (hasPhoto s) (selectedOfficerId s)
                 (hasAutoScanned s).

Definition setGpsLoading (b : bool) (s : ScannerState) : ScannerState :=
  mkScannerState (processing s) b (currentAccuracy s) (pendingLog s)
                 (noteText s) (hasPhoto s) (selectedOfficerId s)
                 (hasAutoScanned s).

Definition setCurrentAccuracy (a : option R) (s : ScannerState) : ScannerState :=
  mkScannerState (processing s) (gpsLoading s) a (pendingLog s)
                 (noteText s) (hasPhoto s) (selectedOfficerId s)
                 (hasAutoScanned s).

Definition setPendingLog (l : option ScanLog) (s : ScannerState) : ScannerState :=
  mkScannerState (processing s) (gpsLoading s) (currentAccuracy s) l
                 (noteText s) (hasPhoto s) (selectedOfficerId s)
                 (hasAutoScanned s).

Definition setNoteText (n : Note) (s : ScannerState) : ScannerState :=
  mkScannerState (processing s) (gpsLoading s) (currentAccuracy s)
                 (pendingLog s) n (hasPhoto s) (selectedOfficerId s)
                 (hasAutoScanned s).

Definition setHasPhoto (b : bool) (s : ScannerState) : ScannerState :=
  mkScannerState (processing s) (gpsLoading s) (currentAccuracy s)
                 (pendingLog s) (noteText s) b (selectedOfficerId s)
                 (hasAutoScanned s).

Definition setSelectedOfficerId (o : string) (s : ScannerState) : ScannerState :=
  mkScannerState (processing s) (gpsLoading s) (currentAccuracy s)
                 (pendingLog s) (noteText s) (hasPhoto s) o
                 (hasAutoScanned s).

Definition setHasAutoScanned (b : bool) (s : ScannerState) : ScannerState :=
  mkScannerState (processing s) (gpsLoading s) (currentAccuracy s)
                 (pendingLog s) (noteText s) (hasPhoto s)
                 (selectedOfficerId s) b.

(** ** components/Scanner.tsx: [handleSimulatedScan] *)

(** Lines 726-729 and 753-766: the verdict and its note, from the
    outcome of the time check, the accuracy (after [|| 0]), the
    distance and the radius of the checkpoint. *)
Definition verdict (timeStatus : TimeStatus) (timeNote : Note)
           (accuracy distance allowedRadius : R) : ScanStatus * Note :=
  let isNearby := Rleb distance allowedRadius in
  let isGpsPoor := Rgtb accuracy 100 in
  match timeStatus with
  | TIME_INVALID => (INVALID_TIME, timeNote)
  | TIME_VALID =>
      if isGpsPoor then (VALID, WeakGPS accuracy)
      else if negb isNearby then (INVALID_LOCATION, LocationMismatch distance)
      else (VALID, RoutineCheckOK)
  end.

(** What [await Promise.race([locationPromise, timeoutPromise])] settles
    to: a reading, or a rejection, whose message is present when the
    rejection is an [Error] (the timeout, a browser without
    geolocation) and absent otherwise. *)
Inductive Sensed :=
| Resolved (currentLocation : Coordinates)
| Rejected (message : option string).

(** The [catch] branch (lines 789-796). *)
Definition scanFailed (mounted : bool) (message : option string)
           (w : World) : World :=
  if negb mounted then w
  else
    let w := withScanner (setProcessing false) w in
    let w := withScanner (setGpsLoading false) w in
    let errMessage :=
      match message with
      | Some m => m
      | None => "Location verification failed."%string
      end in
    let w := alert ("Error: " ++ errMessage)%string w in
    withScanner (setHasAutoScanned true) w.

(** Lines 702-797.  [sensed] is the outcome of the location race, [now]
    the clock read after it, [mounted] the value of [mountedRef.current]
    once the race has settled. *)
Definition handleSimulatedScan (sensed : Sensed) (now : Date) (mounted : bool)
           (checkpointId : string) (w : World) : World :=
  let w := withScanner (setProcessing true) w in
  let w := withScanner (setGpsLoading true) w in
  match find (fun c => String.eqb (cp_id c) checkpointId) (checkpoints (app w)) with
  | None =>
      scanFailed mounted
        (Some "Unknown QR Code. Checkpoint ID not found in system."%string) w
  | Some targetCheckpoint =>
      match sensed with
      | Rejected message => scanFailed mounted message w
      | Resolved currentLocation =>
          let accuracy_ := orR (accuracy currentLocation) 0 in
          let w :=
            if truthyR (accuracy currentLocation)
            then withScanner (setCurrentAccuracy (accuracy currentLocation)) w
            else w in
          let distance := calculateDistance currentLocation
                                            (location targetCheckpoint) in
          let '(timeStatus, timeNote) :=
            timeCheck (schedule targetCheckpoint) now in
          let '(status_, autoNote) :=
            verdict timeStatus timeNote accuracy_ distance
                    (allowedRadiusMeters targetCheckpoint) in
          if negb mounted then w
          else
            let w := withScanner (setGpsLoading false) w in
            let w := withScanner (setProcessing false) w in
            let draftLog :=
              mkScanLog (Js.toString (getTime now))
                        (cp_id targetCheckpoint)
                        (cp_name targetCheckpoint)
                        ""
                        (getTime now)
                        status_
                        (Some autoNote)
                        (Some currentLocation)
                        (Some distance)
                        None in
            let w := withScanner (setPendingLog (Some draftLog)) w in
            let w := withScanner (setNoteText autoNote) w in
            let w := withScanner (setHasPhoto false) w in
            withScanner (setSelectedOfficerId "") w
      end
  end.

(** ** App.tsx: [handleScanComplete] and [loadCloudData] *)

Definition setLogs (f : list ScanLog -> list ScanLog) (a : AppState) : AppState :=
  mkAppState (currentView a) (f (logs a)) (initialScanId a) (isSyncing a)
             (lastSyncTime a) (checkpoints a) (officers a).

Definition setOfficers (f : list User -> list User) (a : AppState) : AppState :=
  mkAppState (currentView a) (logs a) (initialScanId a) (isSyncing a)
             (lastSyncTime a) (checkpoints a) (f (officers a)).

Definition setCheckpoints (f : list Checkpoint -> list Checkpoint)
           (a : AppState) : AppState :=
  mkAppState (currentView a) (logs a) (initialScanId a) (isSyncing a)
             (lastSyncTime a) (f (checkpoints a)) (officers a).

Definition setInitialScanId (i : option string) (a : AppState) : AppState :=
  mkAppState (currentView a) (logs a) i (isSyncing a)
             (lastSyncTime a) (checkpoints a) (officers a).

Definition setCurrentView (v : View) (a : AppState) : AppState :=
  mkAppState v (logs a) (initialScanId a) (isSyncing a)
             (lastSyncTime a) (checkpoints a) (officers a).

Definition setIsSyncing (b : bool) (a : AppState) : AppState :=
  mkAppState (currentView a) (logs a) (initialScanId a) b
             (lastSyncTime a) (checkpoints a) (officers a).

Definition setLastSyncTime (t : option Z) (a : AppState) : AppState :=
  mkAppState (currentView a) (logs a) (initialScanId a) (isSyncing a)
             t (checkpoints a) (officers a).

Definition saveLogToSheet (log : ScanLog) : World -> World :=
  sendToSheet (LOG log).

(** Lines 126-138.  The pull that the source schedules two seconds
    after the request has been sent is a later event: a call of
    [loadCloudData]. *)
Definition handleScanComplete (log : ScanLog) (w : World) : World :=
  let w := withApp (setLogs (fun prev => (prev ++ [log])%list)) w in
  let w := saveLogToSheet log w in
  let w := withApp (setInitialScanId None) w in
  withApp (setCurrentView dashboard) w.

(** What [fetchAllDataFromSheet] resolves to. *)
Record CloudData := mkCloudData {
  cloud_logs : list ScanLog;
  cloud_officers : list User;
  cloud_checkpoints : list Checkpoint
}.

(** [arr.length > 0]. *)
Definition nonEmpty {A : Type} (l : list A) : bool :=
  (0 <? Z.of_nat (List.length l))%Z.

(** Lines 73-102.  [cloudData] is what the fetch resolved to and [now]
    the clock read after it; [fetchAllDataFromSheet] catches its own
    failures and resolves to three empty collections then. *)
Definition loadCloudData (cloudData : CloudData) (now : Date)
           (w : World) : World :=
  if String.eqb (GOOGLE_SCRIPT_URL w) "" then w
  else
    let w := withApp (setIsSyncing true) w in
    let w :=
      if nonEmpty (cloud_logs cloudData)
      then withApp (setLogs (fun _ => cloud_logs cloudData)) w else w in
    let w :=
      if nonEmpty (cloud_officers cloudData)
      then withApp (setOfficers (fun _ => cloud_officers cloudData)) w else w in
    let w :=
      if nonEmpty (cloud_checkpoints cloudData)
      then withApp (setCheckpoints (fun _ => cloud_checkpoints cloudData)) w
      else w in
    let w := withApp (setLastSyncTime (Some (getTime now))) w in
    withApp (setIsSyncing false) w.

(** ** components/Scanner.tsx: [handleFinalSubmit] *)

(** Lines 799-817.  [onScanComplete] is the callback the component was
    given; [App] passes [handleScanComplete]. *)
Definition handleFinalSubmit (onScanComplete : ScanLog -> World -> World)
           (w : World) : World :=
  match pendingLog (scanner w) with
  | None => w
  | Some pending =>
      if String.eqb (selectedOfficerId (scanner w)) ""
      then alert "Please select your name/ID from the list." w
      else
        let officer :=
          find (fun o => String.eqb (user_id o) (selectedOfficerId (scanner w)))
               (officers (app w)) in
        let officerDisplayName :=
          match officer with
          | Some o => (user_name o ++ " (" ++ user_id o ++ ")")%string
          | None => selectedOfficerId (scanner w)
          end in
        let finalLog :=
          mkScanLog (log_id pending)
                    (checkpointId pending)
                    (checkpointName pending)
                    officerDisplayName
                    (timestamp pending)
                    (status pending)
                    (Some (noteText (scanner w)))
                    (userLocation pending)
                    (distanceFromTarget pending)
                    (if hasPhoto (scanner w)
                     then Some "mock_photo_url.jpg"%string else None) in
        onScanComplete finalLog w
  end.

Local Close Scope R_scope.

(** ** App.tsx: the built-in registries (lines 10-34) *)

Definition mainEntranceGate : Checkpoint :=
  mkCheckpoint "cp-001" "Main Entrance Gate"
    (mkCoordinates 13.7563%R 100.5018%R None) 100%R
    (Some (mkScheduleConfig FIXED_TIME
             (Some ["08:00"; "12:00"; "16:00"; "20:00"]) None (Some 10%Q))).

Definition serverRoomB2 : Checkpoint :=
  mkCheckpoint "cp-002" "Server Room B2"
    (mkCoordinates 13.7565%R 100.5020%R None) 50%R
    (Some (mkScheduleConfig INTERVAL None (Some 60%Q) None)).

Definition DEFAULT_CHECKPOINTS : list Checkpoint :=
  [ mainEntranceGate; serverRoomB2 ].

Definition DEFAULT_OFFICERS : list User :=
  [ mkUser "OFF-001" "Somsak Jaidee" OFFICER;
    mkUser "OFF-002" "Mana Meemark" OFFICER ].

(** services/sheetService.ts (line 4). *)
Definition DEFAULT_SCRIPT_URL : string :=
  "https://script.google.com/macros/s/AKfycbw25h6Y4xPk6xmX09wH3J5Z8_-mq1IuOZL-9lyNKdRcIbqzS8sXzBpmJyXBvAY8QCRILQ/exec".

(** The application as it starts, with the scanner open. *)
Definition initialScanner : ScannerState :=
  mkScannerState false false None None EmptyNote false "" false.

Definition initialWorld (scriptUrl : string) : World :=
  mkWorld (mkAppState scanner_view [] None false None
                      DEFAULT_CHECKPOINTS DEFAULT_OFFICERS)
          initialScanner scriptUrl [] [].

(** A clock showing [h]:[m]. *)
Definition clock (h m : Z) : Date := mkDate h m (1700000000000 + (h * 60 + m) * 60000).

(** ** Vocabulary of the statements *)

(** The checkpoint that an identifier resolves to (line 707). *)
Definition lookup (id : string) (w : World) : option Checkpoint :=
  find (fun c => String.eqb (cp_id c) id) (checkpoints (app w)).

(** The verdict and the note that an attempt at [cp] with the reading
    [loc] at [now] arrives at. *)
Definition verdictOf (cp : Checkpoint) (loc : Coordinates) (now : Date)
  : ScanStatus * Note :=
  verdict (fst (timeCheck (schedule cp) now))
          (snd (timeCheck (schedule cp) now))
          (orR (accuracy loc) 0)
          (calculateDistance loc (location cp))
          (allowedRadiusMeters cp).

(** The world after a scan of [id] whose reading arrived while the
    component was mounted. *)
Definition scanned (loc : Coordinates) (now : Date) (id : string)
           (w : World) : World :=
  handleSimulatedScan (Resolved loc) now true id w.

(** A reading taken at a checkpoint, with a given accuracy. *)
Definition readingAt (cp : Checkpoint) (acc : option R) : Coordinates :=
  mkCoordinates (latitude (location cp)) (longitude (location cp)) acc.

(** A draft for the main gate, and the world that waits for its
    confirmation with [officer] selected in the list. *)
Definition gateDraft : ScanLog :=
  mkScanLog (Js.toString (getTime (clock 8 0))) "cp-001" "Main Entrance Gate"
            "" (getTime (clock 8 0)) VALID (Some RoutineCheckOK)
            (Some (readingAt mainEntranceGate (Some 12%R))) (Some 0%R) None.

Definition awaitingConfirmation (officer : string) : World :=
  withScanner
    (fun s => setSelectedOfficerId officer
                (setNoteText RoutineCheckOK
                   (setPendingLog (Some gateDraft) s)))
    (initialWorld DEFAULT_SCRIPT_URL).

(** A post on the equator, half way round from the point (0, 0), with
    no schedule, and a registry that holds this post only. *)
Definition farPost : Checkpoint :=
  mkCheckpoint "cp-far" "Far Post" (mkCoordinates 0%R 180%R None) 50%R None.

Definition farWorld : World :=
  withApp (setCheckpoints (fun _ => [farPost])) (initialWorld "").

(** What a pull may resolve to: no logs, one officer, no checkpoints. *)
Definition oneOfficerCloud : CloudData :=
  mkCloudData [] [mkUser "OFF-003" "Wichai Dee" OFFICER] [].

(** A time of day as the registry writes it: two digits, a colon, two
    digits. *)
Definition twoDigits (n : Z) : string :=
  String (ascii_of_nat (48 + Z.to_nat (n / 10)))
         (String (ascii_of_nat (48 + Z.to_nat (n mod 10))) EmptyString).

Definition hhmm (h m : Z) : string :=
  (twoDigits h ++ ":" ++ twoDigits m)%string.

(** [TimeOfDay t minute]: the string [t] is the time "HH:mm" of the
    day, and [minute] is its minute of the day. *)
Inductive TimeOfDay : string -> Z -> Prop :=
| time_of_day h m :
    0 <= h < 24 -> 0 <= m < 60 -> TimeOfDay (hhmm h m) (h * 60 + m).

Definition wellFormed (times : list string) : Prop :=
  Forall (fun t => exists minute, TimeOfDay t minute) times.

(** Some entry of [times] is at most [tolerance] minutes of the day
    away from [now]. *)
Definition withinTolerance (times : list string) (now : Date)
           (tolerance : Q) : Prop :=
  exists t minute,
    In t times /\ TimeOfDay t minute
    /\ (inject_Z (Z.abs (currentMinutes now - minute)) <= tolerance)%Q.

(** The time check of a FIXED_TIME schedule read as: pass if and only
    if some entry is within the configured tolerance, for every
    configured tolerance from 0 on. *)
Definition passesWithinConfiguredTolerance (s : ScheduleConfig) (now : Date)
  : Prop :=
  forall times tolerance,
    type s = FIXED_TIME ->
    fixedTimes s = Some times -> times <> [] -> wellFormed times ->
    toleranceMinutes s = Some tolerance -> (0 <= tolerance)%Q ->
    (fst (timeCheck (Some s) now) = TIME_VALID
     <-> withinTolerance times now tolerance).

(** The whole numbers below [n]. *)
Definition below (n : nat) : list Z := map Z.of_nat (seq 0 n).

(** The schedule of the claim: 08:00, ten minutes either way. *)
Definition eightOClock : ScheduleConfig :=
  mkScheduleConfig FIXED_TIME (Some ["08:00"]) None (Some 10%Q).

(** * The rest of the code

    The other handlers of [App.tsx] and of the scanner, the report of a
    draft, the counters of the dashboard, the schedule form of the
    administrator and the grid reference of [utils.ts].  As for the
    distance, the grid reference is read over the real numbers, and
    [Math.floor] and [Math.round] are the exact floor and the floor of
    the number plus one half. *)

Local Open Scope R_scope.

(** ** More JavaScript primitives *)

(** A double quote. *)
Definition dquote : string := String "034"%char EmptyString.

(** [Math.floor(x)] and [Math.round(x)]: the latter is the floor of
    [x + 0.5]. *)
Definition floor (x : R) : Z := Int_part x.
Definition round (x : R) : Z := floor (x + / 2).

(** [arr.filter((_, i) => f(i))]: the elements at the positions that
    [f] keeps, from position [i] on. *)
Fixpoint filterIndex {A : Type} (f : nat -> bool) (i : nat) (l : list A)
  : list A :=
  match l with
  | [] => []
  | x :: rest =>
      if f i then x :: filterIndex f (S i) rest else filterIndex f (S i) rest
  end.

(** [updated[index] = val] on a copy of the array, for an index below
    the length.  [None]: the index is not below the length; the source
    then extends the array with holes, which a list of strings cannot
    hold, and which no input of the form can cause. *)
Fixpoint assignIndex (index : nat) (val : string) (l : list string)
  : option (list string) :=
  match l, index with
  | [], _ => None
  | _ :: rest, O => Some (val :: rest)
  | x :: rest, S i =>
      match assignIndex i val rest with
      | Some rest' => Some (x :: rest')
      | None => None
      end
  end.

(** ** services/sheetService.ts *)

(** [setScriptUrl] and [getScriptUrl]. *)
Definition setScriptUrl (url : string) (w : World) : World :=
  mkWorld (app w) (scanner w) url (alerts w) (posted w).

Definition getScriptUrl (w : World) : string := GOOGLE_SCRIPT_URL w.

(** The three other requests.  That of [addCheckpointToSheet] carries
    the id, the name, the latitude, the longitude, the radius and the
    schedule of the checkpoint; [ADD_CHECKPOINT] keeps the checkpoint
    they are read from. *)
Definition addOfficerToSheet (officer : User) : World -> World :=
  sendToSheet (ADD_OFFICER officer).

Definition removeOfficerFromSheet (officerId : string) : World -> World :=
  sendToSheet (REMOVE_OFFICER officerId).

Definition addCheckpointToSheet (checkpoint : Checkpoint) : World -> World :=
  sendToSheet (ADD_CHECKPOINT checkpoint).

(** ** App.tsx: the other handlers *)

(** The effect of lines 110-124.  [cpId] is the value of the
    [checkpointId] parameter of the address, if there is one. *)
Definition deepLink (cpId : option string) (w : World) : World :=
  match cpId with
  | None => w
  | Some id =>
      if String.eqb id "" then w
      else
        match find (fun c => String.eqb (cp_id c) id) (checkpoints (app w)) with
        | Some _ =>
            let w := withApp (setInitialScanId (Some id)) w in
            withApp (setCurrentView scanner_view) w
        | None =>
            alert ("Error: Checkpoint ID " ++ dquote ++ id ++ dquote
                   ++ " not found in system.")%string w
        end
  end.

(** Lines 140-145, 147-151 and 153-159.  [cloudData] and [now] are
    those of the pull that the handler starts once the request has been
    sent; [confirmed] is the answer to the question that
    [handleRemoveOfficer] asks. *)
Definition handleAddCheckpoint (newCheckpoint : Checkpoint)
           (cloudData : CloudData) (now : Date) (w : World) : World :=
  let w := withApp (setCheckpoints (fun prev => (prev ++ [newCheckpoint])%list)) w in
  let w := addCheckpointToSheet newCheckpoint w in
  loadCloudData cloudData now w.

Definition handleAddOfficer (newOfficer : User)
           (cloudData : CloudData) (now : Date) (w : World) : World :=
  let w := withApp (setOfficers (fun prev => (prev ++ [newOfficer])%list)) w in
  let w := addOfficerToSheet newOfficer w in
  loadCloudData cloudData now w.

Definition handleRemoveOfficer (id : string) (confirmed : bool)
           (cloudData : CloudData) (now : Date) (w : World) : World :=
  if confirmed then
    let w :=
      withApp (setOfficers
                 (fun prev => filter (fun o => negb (String.eqb (user_id o) id)) prev))
              w in
    let w := removeOfficerFromSheet id w in
    loadCloudData cloudData now w
  else w.

(** Lines 161-166, 168-171 and 173-180 (the two local storage keys that
    [handleResetData] removes are outside the world). *)
Definition handleImportCheckpoints (imported : list Checkpoint)
           (w : World) : World :=
  withApp (setCheckpoints (fun _ => imported)) w.

Definition handleCancelScan (w : World) : World :=
  let w := withApp (setInitialScanId None) w in
  withApp (setCurrentView dashboard) w.

Definition handleResetData (confirmed : bool) (w : World) : World :=
  if confirmed then
    let w := withApp (setCheckpoints (fun _ => DEFAULT_CHECKPOINTS)) w in
    withApp (setOfficers (fun _ => DEFAULT_OFFICERS)) w
  else w.

(** ** components/Scanner.tsx: the report of a draft *)

(** The Cancel button of the report (line 858). *)
Definition cancelDraft (w : World) : World :=
  let w := withScanner (setPendingLog None) w in
  withScanner (setHasAutoScanned true) w.

(** The effect of lines 692-699, with the scan that its timer starts.
    [initialCheckpointId] is the property that [App] fills with its
    [initialScanId]; [mountedAtTimer] is [mountedRef.current] when the
    timer fires. *)
Definition autoScan (mountedAtTimer : bool) (sensed : Sensed) (now : Date)
           (mounted : bool) (w : World) : World :=
  match initialScanId (app w) with
  | Some initialCheckpointId =>
      if negb (String.eqb initialCheckpointId "")
         && negb (hasAutoScanned (scanner w))
      then
        let w := withScanner (setHasAutoScanned true) w in
        if mountedAtTimer
        then handleSimulatedScan sensed now mounted initialCheckpointId w
        else w
      else w
  | None => w
  end.

(** The inputs of the report: the list of officers (line 918), the
    note (line 937) and the photo button (line 947). *)
Definition selectOfficer (value : string) (w : World) : World :=
  withScanner (setSelectedOfficerId value) w.

Definition typeNote (value : string) (w : World) : World :=
  withScanner (setNoteText (Typed value)) w.

Definition togglePhoto (w : World) : World :=
  withScanner (setHasPhoto (negb (hasPhoto (scanner w)))) w.

Definition ScanStatus_eqb (a b : ScanStatus) : bool :=
  match a, b with
  | VALID, VALID | INVALID_LOCATION, INVALID_LOCATION
  | INVALID_TIME, INVALID_TIME | LATE, LATE
  | ISSUE_REPORTED, ISSUE_REPORTED => true
  | _, _ => false
  end.

(** Lines 821-827 of the report: the rounded distance and accuracy, and
    whether the weak-signal line is due. *)
Definition reportDistance (pending : ScanLog) : Z :=
  round (orR (distanceFromTarget pending) 0).

Definition reportAccuracy (pending : ScanLog) : Z :=
  match userLocation pending with
  | Some loc => if truthyR (accuracy loc) then round (orR (accuracy loc) 0) else 0%Z
  | None => 0%Z
  end.

Definition isWeakSignal (pending : ScanLog) : bool :=
  ScanStatus_eqb (status pending) VALID && (100 <? reportAccuracy pending)%Z.

(** Lines 833-851: the title and the line under it. *)
Definition reportTitle (pending : ScanLog) : string * string :=
  if ScanStatus_eqb (status pending) INVALID_TIME
  then ("Schedule Mismatch", "Outside allowed scan time")%string
  else if ScanStatus_eqb (status pending) INVALID_LOCATION
  then ("Location Mismatch",
        "Too far from " ++ checkpointName pending ++ " ("
        ++ Js.toString (reportDistance pending) ++ "m)")%string
  else ("Location Verified", "You are at " ++ checkpointName pending)%string.

(** Lines 883 and 895: whether the accuracy chip and the weak-signal
    line are shown. *)
Definition showsAccuracy (pending : ScanLog) : bool :=
  (0 <? reportAccuracy pending)%Z
  && negb (ScanStatus_eqb (status pending) INVALID_TIME).

Definition showsWeakSignal (pending : ScanLog) : bool :=
  isWeakSignal pending && negb (ScanStatus_eqb (status pending) INVALID_TIME).

(** ** components/Dashboard.tsx *)

Definition COLORS : list string :=
  ["#10b981"; "#ef4444"; "#f59e0b"; "#3b82f6"]%string.

Definition countStatus (st : ScanStatus) (logs : list ScanLog) : nat :=
  List.length (filter (fun l => ScanStatus_eqb (status l) st) logs).

(** Lines 18-21. *)
Definition validScans : list ScanLog -> nat := countStatus VALID.
Definition invalidScans : list ScanLog -> nat := countStatus INVALID_LOCATION.
Definition issueScans : list ScanLog -> nat := countStatus ISSUE_REPORTED.
Definition lateScans : list ScanLog -> nat := countStatus LATE.

(** Lines 23-28: the slices of the chart. *)
Definition chartData (logs : list ScanLog) : list (string * nat) :=
  filter (fun d => (0 <? snd d)%nat)
         [ ("Valid"%string, validScans logs);
           ("Invalid/Distance"%string, invalidScans logs);
           ("Issues"%string, issueScans logs);
           ("Late"%string, lateScans logs) ].

(** Line 76: the colour of the slice at [index]. *)
Definition cellFill (index : nat) : string :=
  nth (index mod List.length COLORS) COLORS ""%string.

(** Line 147: the rows of the table, newest first. *)
Definition tableRows (logs : list ScanLog) : list ScanLog := rev logs.

(** ** components/AdminQrSetup.tsx: the schedule of a new checkpoint *)

(** Lines 90-92, 94-98 and 100-102. *)
Definition handleAddFixedTime (fixedTimes : list string) : list string :=
  (fixedTimes ++ ["12:00"%string])%list.

Definition handleFixedTimeChange (index : nat) (val : string)
           (fixedTimes : list string) : option (list string) :=
  assignIndex index val fixedTimes.

Definition handleRemoveFixedTime (index : nat) (fixedTimes : list string)
  : list string :=
  filterIndex (fun i => negb (Nat.eqb i index)) 0 fixedTimes.

(** What the operator can do to the list of times: the form shows an
    input for every position of the list and a remove button beside it
    when the list has more than one entry (lines 479-495). *)
Inductive FormEvent :=
| AddTime
| ChangeTime (idx : nat) (val : string)
| RemoveTime (idx : nat).

Definition formStep (fixedTimes : list string) (e : FormEvent) : list string :=
  match e with
  | AddTime => handleAddFixedTime fixedTimes
  | ChangeTime idx val =>
      match handleFixedTimeChange idx val fixedTimes with
      | Some updated => updated
      | None => fixedTimes          (* no input at this position *)
      end
  | RemoveTime idx =>
      if (1 <? List.length fixedTimes)%nat && (idx <? List.length fixedTimes)%nat
      then handleRemoveFixedTime idx fixedTimes
      else fixedTimes               (* no button at this position *)
  end.

(** The list of times of the form after a session that starts from its
    initial value (line 36; line 134 after a submission). *)
Definition editFixedTimes (events : list FormEvent) : list string :=
  fold_left formStep events ["08:00"%string].

(** Lines 108-113: the schedule that [handleSubmitCheckpoint] builds.
    [intervalMins] is the number of the interval input (the NaN of an
    emptied input is not a rational); the time check never reads it. *)
Definition formSchedule (scheduleType : ScheduleType) (intervalMins : Q)
           (fixedTimes : list string) : ScheduleConfig :=
  mkScheduleConfig
    scheduleType
    (match scheduleType with FIXED_TIME => Some fixedTimes | _ => None end)
    (match scheduleType with INTERVAL => Some intervalMins | _ => None end)
    (Some 15%Q).

(** ** utils.ts: [latLonToUtm] (lines 59-96) *)

Definition zoneNumber (lon : R) : Z := (floor ((lon + 180) / 6) + 1)%Z.

Definition centralMeridian (lon : R) : R :=
  IZR ((zoneNumber lon - 1) * 6 - 180 + 3) * (PI / 180).

Definition wgs84_a : R := 6378137.
Definition wgs84_f : R := 1 / 298.257223563.
Definition wgs84_b : R := wgs84_a * (1 - wgs84_f).
Definition eSq : R :=
  (wgs84_a * wgs84_a - wgs84_b * wgs84_b) / (wgs84_a * wgs84_a).
Definition ePrimeSq : R :=
  (wgs84_a * wgs84_a - wgs84_b * wgs84_b) / (wgs84_b * wgs84_b).

Definition utmN (latRad : R) : R :=
  wgs84_a / sqrt (1 - eSq * sin latRad * sin latRad).
Definition utmT (latRad : R) : R := tan latRad * tan latRad.
Definition utmC (latRad : R) : R := ePrimeSq * cos latRad * cos latRad.
Definition utmA (lat lon : R) : R :=
  cos (lat * (PI / 180)) * (lon * (PI / 180) - centralMeridian lon).

Definition utmM (latRad : R) : R :=
  wgs84_a
  * ((1 - eSq / 4 - 3 * eSq * eSq / 64 - 5 * eSq * eSq * eSq / 256) * latRad
     - (3 * eSq / 8 + 3 * eSq * eSq / 32 + 45 * eSq * eSq * eSq / 1024)
       * sin (2 * latRad)
     + (15 * eSq * eSq / 256 + 45 * eSq * eSq * eSq / 1024) * sin (4 * latRad)
     - (35 * eSq * eSq * eSq / 3072) * sin (6 * latRad)).

Definition easting (lat lon : R) : R :=
  let falseEasting := 500000 in
  let k0 := 0.9996 in
  let latRad := lat * (PI / 180) in
  let N := utmN latRad in
  let T := utmT latRad in
  let C := utmC latRad in
  let A := utmA lat lon in
  falseEasting
  + k0 * N * (A + (1 - T + C) * A * A * A / 6
              + (5 - 18 * T + T * T + 72 * C - 58 * ePrimeSq)
                * A * A * A * A * A / 120).

Definition northing (lat lon : R) : R :=
  let falseNorthing := if Rge_dec lat 0 then 0 else 10000000 in
  let k0 := 0.9996 in
  let latRad := lat * (PI / 180) in
  let N := utmN latRad in
  let T := utmT latRad in
  let C := utmC latRad in
  let A := utmA lat lon in
  falseNorthing
  + k0 * (utmM latRad
          + N * tan latRad
            * (A * A / 2
               + (5 - T + 9 * C + 4 * C * C) * A * A * A * A / 24
               + (61 - 58 * T + T * T + 600 * C - 330 * ePrimeSq)
                 * A * A * A * A * A * A / 720)).

Definition latLonToUtm (lat lon : R) : string :=
  if negb (Rleb (-80) lat && Rleb lat 84) then "Outside UTM Limits"%string
  else
    ("Zone " ++ Js.toString (zoneNumber lon)
     ++ " | E: " ++ Js.toString (floor (easting lat lon))
     ++ " N: " ++ Js.toString (floor (northing lat lon)))%string.

(** ** Vocabulary of the further statements *)

(** Two pulls in a row, as one: per collection the later answer if it
    is non-empty, the earlier one otherwise. *)
Definition mergeCloud (first second : CloudData) : CloudData :=
  mkCloudData
    (if nonEmpty (cloud_logs second)
     then cloud_logs second else cloud_logs first)
    (if nonEmpty (cloud_officers second)
     then cloud_officers second else cloud_officers first)
    (if nonEmpty (cloud_checkpoints second)
     then cloud_checkpoints second else cloud_checkpoints first).

Definition emptyCloud : CloudData := mkCloudData [] [] [].

(** The draft that a scan of [cp] with the reading [loc] at [now]
    makes (lines 772-782). *)
Definition draftOf (cp : Checkpoint) (loc : Coordinates) (now : Date)
  : ScanLog :=
  mkScanLog (Js.toString (getTime now)) (cp_id cp) (cp_name cp) ""
            (getTime now) (fst (verdictOf cp loc now))
            (Some (snd (verdictOf cp loc now))) (Some loc)
            (Some (calculateDistance loc (location cp))) None.

(** The record that a confirmation makes of a draft (lines 809-814). *)
Definition recordOf (draft : ScanLog) (officer : string) (noteText : Note)
           (hasPhoto : bool) : ScanLog :=
  mkScanLog (log_id draft) (checkpointId draft) (checkpointName draft)
            officer (timestamp draft) (status draft) (Some noteText)
            (userLocation draft) (distanceFromTarget draft)
            (if hasPhoto then Some "mock_photo_url.jpg"%string else None).

(** The name under which a confirmed record carries its officer. *)
Definition displayName (o : User) : string :=
  (user_name o ++ " (" ++ user_id o ++ ")")%string.

(** ** Inputs of the further runs *)

Definition somsak : User := mkUser "OFF-001" "Somsak Jaidee" OFFICER.
Definition wichai : User := mkUser "OFF-003" "Wichai Dee" OFFICER.

(** A checkpoint of the form whose only time input has been cleared,
    and a registry that holds this checkpoint only. *)
Definition clearedPost : Checkpoint :=
  mkCheckpoint "cp-1700000000000" "Cleared Post"
    (mkCoordinates 13.7563 100.5018 None) 50
    (Some (formSchedule FIXED_TIME 90%Q [""%string])).

Definition clearedWorld : World :=
  withApp (setCheckpoints (fun _ => [clearedPost])) (initialWorld "").

(** A checkpoint to add to the built-in registry. *)
Definition sideGate : Checkpoint :=
  mkCheckpoint "cp-1700000000001" "Side Gate"
    (mkCoordinates 13.7570 100.5025 None) 50
    (Some (formSchedule NONE 90%Q ["08:00"%string])).

(** A record of a scan that was too far away. *)
Definition rejectedLog : ScanLog :=
  mkScanLog "sheet-0" "unknown" "Server Room B2" "Mana Meemark (OFF-002)"
            (getTime (clock 9 30)) INVALID_LOCATION None None None None.

(** 08:00 without a tolerance. *)
Definition eightNoTolerance : ScheduleConfig :=
  mkScheduleConfig FIXED_TIME (Some ["08:00"%string]) None None.

Local Close Scope R_scope.

(** * Properties *)

(** ** The time check *)

Section Schedule.

Example split_0800 : Js.split ":" "08:00" = ["08"; "00"].
Proof. reflexivity. Qed.

Example split_no_colon : Js.split ":" "0800" = ["0800"].
Proof. reflexivity. Qed.

Example Number_08 : Js.Number "08" = Some 8.
Proof. reflexivity. Qed.

Example Number_empty : Js.Number "" = Some 0.
Proof. reflexivity. Qed.

Example Number_NaN : Js.Number "8h" = None.
Proof. reflexivity. Qed.

Example targetMinutes_0800 : targetMinutes "08:00" = Some 480.
Proof. reflexivity. Qed.

Example targetMinutes_NaN : targetMinutes "0800" = None.
Proof. reflexivity. Qed.

Example toString_ms : Js.toString 1700000000123 = "1700000000123".
Proof. reflexivity. Qed.

Example hhmm_0800 : hhmm 8 0 = "08:00".
Proof. reflexivity. Qed.

(** C4.  With the times ["08:00"] and a tolerance of 10 minutes the
    time check passes at 07:51, fails at 07:49, passes at 08:10 and
    fails at 08:11. *)
Theorem eight_o_clock_window :
  fst (timeCheck (Some eightOClock) (clock 7 51)) = TIME_VALID
  /\ fst (timeCheck (Some eightOClock) (clock 7 49)) = TIME_INVALID
  /\ fst (timeCheck (Some eightOClock) (clock 8 10)) = TIME_VALID
  /\ fst (timeCheck (Some eightOClock) (clock 8 11)) = TIME_INVALID.
Proof. repeat split; reflexivity. Qed.

Lemma In_below n z : 0 <= z < Z.of_nat n -> In z (below n).
Proof.
  intros Hz; unfold below.
  rewrite <- (Z2Nat.id z) by lia.
  apply in_map, in_seq; lia.
Qed.

(** Reading a written time gives back its hour and minute: checked on
    every minute of the day. *)
Lemma targetMinutes_table :
  forallb (fun h =>
    forallb (fun m =>
      match targetMinutes (hhmm h m) with
      | Some t => t =? h * 60 + m
      | None => false
      end) (below 60)) (below 24) = true.
Proof. vm_compute; reflexivity. Qed.

Lemma targetMinutes_hhmm h m :
  0 <= h < 24 -> 0 <= m < 60 ->
  targetMinutes (hhmm h m) = Some (h * 60 + m).
Proof.
  intros Hh Hm.
  pose proof targetMinutes_table as T.
  rewrite forallb_forall in T.
  specialize (T h (In_below 24 h Hh)).
  rewrite forallb_forall in T.
  specialize (T m (In_below 60 m Hm)).
  destruct (targetMinutes (hhmm h m)) as [t|]; [ | discriminate ].
  apply Z.eqb_eq in T; now subst.
Qed.

Lemma TimeOfDay_targetMinutes t minute :
  TimeOfDay t minute -> targetMinutes t = Some minute.
Proof. intros [h m Hh Hm]; now apply targetMinutes_hhmm. Qed.

(** A written time has one minute of the day. *)
Lemma TimeOfDay_functional t m1 m2 :
  TimeOfDay t m1 -> TimeOfDay t m2 -> m1 = m2.
Proof.
  intros H1 H2.
  apply TimeOfDay_targetMinutes in H1, H2; congruence.
Qed.

Lemma inWindow_TimeOfDay current tolerance t minute :
  TimeOfDay t minute ->
  inWindow current tolerance t = true
  <-> (inject_Z (Z.abs (current - minute)) <= tolerance)%Q.
Proof.
  intros Ht; unfold inWindow.
  rewrite (TimeOfDay_targetMinutes _ _ Ht).
  apply Qle_bool_iff.
Qed.

(** [fixedTimes.some(...)] on well-formed times. *)
Lemma some_inWindow times now tolerance :
  wellFormed times ->
  existsb (inWindow (currentMinutes now) tolerance) times = true
  <-> withinTolerance times now tolerance.
Proof.
  intros Hwf; unfold withinTolerance, wellFormed in *.
  rewrite Forall_forall in Hwf.
  rewrite existsb_exists; split.
  - intros (t & Hin & Hw).
    destruct (Hwf t Hin) as (minute & Ht).
    exists t, minute; repeat split; try assumption.
    now apply (inWindow_TimeOfDay _ _ _ _ Ht).
  - intros (t & minute & Hin & Ht & Hle).
    exists t; split; [ assumption | ].
    now apply (inWindow_TimeOfDay _ _ _ _ Ht).
Qed.

(** The time check of a FIXED_TIME schedule passes exactly when some
    entry is within the tolerance in force, [toleranceOf]. *)
Lemma timeCheck_fixed_time s times now :
  type s = FIXED_TIME -> fixedTimes s = Some times -> wellFormed times ->
  fst (timeCheck (Some s) now) = TIME_VALID
  <-> withinTolerance times now (toleranceOf s).
Proof.
  intros Hty Hft Hwf.
  rewrite <- (some_inWindow times now (toleranceOf s) Hwf).
  unfold timeCheck; rewrite Hty, Hft.
  destruct (existsb _ _); cbn; split; congruence.
Qed.

(** The tolerance in force: the configured one unless it is 0, and 10
    when there is none. *)
Lemma toleranceOf_configured s tolerance :
  toleranceMinutes s = Some tolerance -> ~ (tolerance == 0)%Q ->
  toleranceOf s = tolerance.
Proof.
  intros Hs Hnz; unfold toleranceOf, Js.orQ; rewrite Hs.
  destruct (Qeq_bool tolerance 0) eqn:E; [ | reflexivity ].
  apply Qeq_bool_iff in E; contradiction.
Qed.

Lemma toleranceOf_zero s tolerance :
  toleranceMinutes s = Some tolerance -> (tolerance == 0)%Q ->
  toleranceOf s = 10%Q.
Proof.
  intros Hs Hz; unfold toleranceOf, Js.orQ; rewrite Hs.
  apply Qeq_bool_iff in Hz; now rewrite Hz.
Qed.

Lemma toleranceOf_absent s : toleranceMinutes s = None -> toleranceOf s = 10%Q.
Proof. intros Hs; unfold toleranceOf, Js.orQ; now rewrite Hs. Qed.

(** C5, as stated, fails: with the times ["08:00"] and a configured
    tolerance of 0 the time check passes at 08:05, five minutes away
    from the only entry. *)
Lemma zero_tolerance_is_not_honoured :
  ~ passesWithinConfiguredTolerance
      (mkScheduleConfig FIXED_TIME (Some ["08:00"]) None (Some 0%Q))
      (clock 8 5).
Proof.
  intros Hclaim.
  assert (Hwf : wellFormed ["08:00"]).
  { constructor; [ | constructor ].
    exists (8 * 60 + 0); apply (time_of_day 8 0); lia. }
  destruct (Hclaim ["08:00"] 0%Q eq_refl eq_refl) as [Hpass _];
    [ discriminate | exact Hwf | reflexivity | apply Qle_refl | ].
  destruct (Hpass eq_refl) as (t & minute & Hin & Ht & Hle).
  destruct Hin as [<- | []].
  apply TimeOfDay_targetMinutes in Ht.
  cbv in Ht; injection Ht as <-.
  now apply Qle_bool_iff in Hle.
Qed.

(** C5, amended.  For a FIXED_TIME schedule with well-formed times and
    a configured tolerance above 0, the time check passes if and only
    if some entry is at most the configured tolerance away from now, in
    minutes of the day. *)
Theorem fixed_time_within_positive_tolerance s times tolerance now :
  type s = FIXED_TIME ->
  fixedTimes s = Some times -> wellFormed times ->
  toleranceMinutes s = Some tolerance -> (0 < tolerance)%Q ->
  fst (timeCheck (Some s) now) = TIME_VALID
  <-> withinTolerance times now tolerance.
Proof.
  intros Hty Hft Hwf Htol Hpos.
  rewrite (timeCheck_fixed_time s times now Hty Hft Hwf).
  rewrite (toleranceOf_configured s tolerance Htol); [ reflexivity | ].
  intros Hz; rewrite Hz in Hpos; now apply Qlt_irrefl in Hpos.
Qed.

End Schedule.


(** ** The verdict of a scan *)

Section Verdict.

Local Open Scope R_scope.

Lemma Rleb_true x y : Rleb x y = true <-> x <= y.
Proof. unfold Rleb; destruct (Rle_dec x y); split; intros; try easy; lra. Qed.

Lemma Rleb_false x y : Rleb x y = false <-> x > y.
Proof. unfold Rleb; destruct (Rle_dec x y); split; intros; try easy; lra. Qed.

Lemma Rgtb_true x y : Rgtb x y = true <-> x > y.
Proof. unfold Rgtb; destruct (Rgt_dec x y); split; intros; try easy; lra. Qed.

Lemma Rgtb_false x y : Rgtb x y = false <-> x <= y.
Proof. unfold Rgtb; destruct (Rgt_dec x y); split; intros; try easy; lra. Qed.

(** [x || 0] is [x] when there is an [x]. *)
Lemma orR_Some r : orR (Some r) 0 = r.
Proof. unfold orR; destruct (Req_dec_T r 0); congruence. Qed.

Lemma orR_None d : orR None d = d.
Proof. reflexivity. Qed.

(** The four rows of the priority table of lines 756-766. *)
Lemma verdict_invalid_time timeNote acc d r :
  verdict TIME_INVALID timeNote acc d r = (INVALID_TIME, timeNote).
Proof. reflexivity. Qed.

Lemma verdict_weak_gps timeNote acc d r :
  acc > 100 -> verdict TIME_VALID timeNote acc d r = (VALID, WeakGPS acc).
Proof.
  intros Hacc; unfold verdict.
  apply Rgtb_true in Hacc; now rewrite Hacc.
Qed.

Lemma verdict_far timeNote acc d r :
  acc <= 100 -> d > r ->
  verdict TIME_VALID timeNote acc d r = (INVALID_LOCATION, LocationMismatch d).
Proof.
  intros Hacc Hd; unfold verdict.
  apply Rgtb_false in Hacc; apply Rleb_false in Hd.
  now rewrite Hacc, Hd.
Qed.

Lemma verdict_near timeNote acc d r :
  acc <= 100 -> d <= r ->
  verdict TIME_VALID timeNote acc d r = (VALID, RoutineCheckOK).
Proof.
  intros Hacc Hd; unfold verdict.
  apply Rgtb_false in Hacc; apply Rleb_true in Hd.
  now rewrite Hacc, Hd.
Qed.

(** A resolved checkpoint, a reading and a mounted component give a
    draft, and nothing else decides its status than [verdict]. *)
Lemma handleSimulatedScan_drafts w id cp loc now :
  lookup id w = Some cp ->
  exists draft,
    pendingLog (scanner (scanned loc now id w)) = Some draft
    /\ status draft = fst (verdictOf cp loc now)
    /\ note draft = Some (snd (verdictOf cp loc now))
    /\ distanceFromTarget draft = Some (calculateDistance loc (location cp))
    /\ checkpointId draft = cp_id cp
    /\ officerId draft = ""%string.
Proof.
  unfold scanned, lookup, handleSimulatedScan, verdictOf; cbn [app withScanner].
  intros ->.
  destruct (timeCheck (schedule cp) now) as [timeStatus timeNote].
  destruct (verdict _ _ _ _ _) as [st autoNote].
  cbn [negb]. eexists; split; [ reflexivity | now cbn ].
Qed.

(** Without a checkpoint, a reading or a mounted component no draft is
    made: the pending draft is the one there was. *)
Lemma handleSimulatedScan_unknown w sensed now mounted id :
  lookup id w = None ->
  pendingLog (scanner (handleSimulatedScan sensed now mounted id w))
  = pendingLog (scanner w).
Proof.
  unfold lookup, handleSimulatedScan; cbn [app withScanner].
  intros ->. unfold scanFailed. now destruct mounted.
Qed.

Lemma handleSimulatedScan_rejected w message now mounted id :
  pendingLog (scanner (handleSimulatedScan (Rejected message) now mounted id w))
  = pendingLog (scanner w).
Proof.
  unfold handleSimulatedScan; cbn [app withScanner].
  destruct (find _ _); unfold scanFailed; now destruct mounted.
Qed.

Lemma handleSimulatedScan_unmounted w sensed now id :
  pendingLog (scanner (handleSimulatedScan sensed now false id w))
  = pendingLog (scanner w).
Proof.
  unfold handleSimulatedScan; cbn [app withScanner].
  destruct (find _ _) as [cp|]; [ | reflexivity ].
  destruct sensed as [loc | message]; [ | reflexivity ].
  destruct (timeCheck _ _), (verdict _ _ _ _ _), (truthyR _); reflexivity.
Qed.

(** An identifier that is not in the registry is answered by an alert. *)
Example unknown_code :
  alerts (handleSimulatedScan (Resolved (readingAt mainEntranceGate None))
                              (clock 8 0) true "cp-999" (initialWorld ""))
  = ["Error: Unknown QR Code. Checkpoint ID not found in system."%string].
Proof. reflexivity. Qed.

(** So is a reading that does not arrive in time. *)
Example gps_timed_out :
  alerts (handleSimulatedScan
            (Rejected (Some "GPS timed out. Move to open sky."%string))
            (clock 8 0) true "cp-001" (initialWorld ""))
  = ["Error: GPS timed out. Move to open sky."%string].
Proof. reflexivity. Qed.

(** C1.  When the time check of the resolved checkpoint fails at the
    current time, the draft that the scan emits has status INVALID_TIME,
    whatever the reading is: whatever its distance to the checkpoint
    (inside the radius or not) and whatever its accuracy (above 100
    meters or not). *)
Theorem schedule_failure_takes_precedence w id cp loc now :
  lookup id w = Some cp ->
  fst (timeCheck (schedule cp) now) = TIME_INVALID ->
  exists draft,
    pendingLog (scanner (scanned loc now id w)) = Some draft
    /\ status draft = INVALID_TIME.
Proof.
  intros Hcp Htime.
  destruct (handleSimulatedScan_drafts w id cp loc now Hcp)
    as (draft & Hpending & Hstatus & _).
  exists draft; split; [ exact Hpending | ].
  rewrite Hstatus; unfold verdictOf; now rewrite Htime.
Qed.

(** C2.  When the time check passes and the reading reports an accuracy
    strictly above 100 meters, the draft has status VALID, whatever the
    distance and the radius are. *)
Theorem degraded_sensor_is_trusted w id cp loc now acc :
  lookup id w = Some cp ->
  fst (timeCheck (schedule cp) now) = TIME_VALID ->
  accuracy loc = Some acc ->
  acc > 100 ->
  exists draft,
    pendingLog (scanner (scanned loc now id w)) = Some draft
    /\ status draft = VALID.
Proof.
  intros Hcp Htime Hacc Hpoor.
  destruct (handleSimulatedScan_drafts w id cp loc now Hcp)
    as (draft & Hpending & Hstatus & _).
  exists draft; split; [ exact Hpending | ].
  rewrite Hstatus; unfold verdictOf.
  rewrite Htime, Hacc, orR_Some, verdict_weak_gps by assumption.
  reflexivity.
Qed.

(** C3.  When the time check passes and the accuracy is at most 100
    meters (or the reading has none), the draft has status
    INVALID_LOCATION if the computed distance is strictly greater than
    the radius of the checkpoint, and VALID if it is less than or equal
    to it. *)
Theorem geofence_decides_with_a_good_sensor w id cp loc now :
  lookup id w = Some cp ->
  fst (timeCheck (schedule cp) now) = TIME_VALID ->
  (forall acc, accuracy loc = Some acc -> acc <= 100) ->
  exists draft,
    pendingLog (scanner (scanned loc now id w)) = Some draft
    /\ distanceFromTarget draft = Some (calculateDistance loc (location cp))
    /\ (calculateDistance loc (location cp) > allowedRadiusMeters cp ->
        status draft = INVALID_LOCATION)
    /\ (calculateDistance loc (location cp) <= allowedRadiusMeters cp ->
        status draft = VALID).
Proof.
  intros Hcp Htime Hacc.
  destruct (handleSimulatedScan_drafts w id cp loc now Hcp)
    as (draft & Hpending & Hstatus & _ & Hdist & _).
  exists draft; split; [ exact Hpending | split; [ exact Hdist | ] ].
  assert (Hgood : orR (accuracy loc) 0 <= 100).
  { destruct (accuracy loc) as [acc|].
    - rewrite orR_Some; now apply Hacc.
    - rewrite orR_None; lra. }
  rewrite Hstatus; unfold verdictOf; rewrite Htime.
  split; intros Hd.
  - now rewrite verdict_far.
  - now rewrite verdict_near.
Qed.

(** The time check passes where there is nothing to check. *)
Lemma timeCheck_no_fixed_time sched now :
  (forall s, sched = Some s -> type s = NONE \/ type s = INTERVAL) ->
  timeCheck sched now = (TIME_VALID, EmptyNote).
Proof.
  intros Hs; destruct sched as [s|]; [ | reflexivity ].
  unfold timeCheck.
  destruct (Hs s eq_refl) as [-> | ->]; reflexivity.
Qed.

(** C6.  For a checkpoint whose schedule is absent, of type NONE or of
    type INTERVAL, the time check passes and the draft that the scan
    emits does not have status INVALID_TIME. *)
Theorem no_time_window_no_invalid_time w id cp loc now :
  lookup id w = Some cp ->
  (forall s, schedule cp = Some s -> type s = NONE \/ type s = INTERVAL) ->
  fst (timeCheck (schedule cp) now) = TIME_VALID
  /\ exists draft,
       pendingLog (scanner (scanned loc now id w)) = Some draft
       /\ status draft <> INVALID_TIME.
Proof.
  intros Hcp Hs.
  pose proof (timeCheck_no_fixed_time _ now Hs) as Htime.
  split; [ now rewrite Htime | ].
  destruct (handleSimulatedScan_drafts w id cp loc now Hcp)
    as (draft & Hpending & Hstatus & _).
  exists draft; split; [ exact Hpending | ].
  rewrite Hstatus; unfold verdictOf, verdict; rewrite Htime; cbn [fst snd].
  destruct (Rgtb _ _); [ discriminate | ].
  destruct (negb _); discriminate.
Qed.

(** The note of the time check is empty or the wrong-time note. *)
Lemma timeCheck_note sched now :
  snd (timeCheck sched now) = EmptyNote
  \/ exists times tolerance, snd (timeCheck sched now) = WrongTime times tolerance.
Proof.
  unfold timeCheck.
  destruct sched as [s|]; [ | now left ].
  destruct (type s); try now left.
  destruct (fixedTimes s) as [times|]; [ | now left ].
  destruct (negb _); [ right; now eexists _, _ | now left ].
Qed.

(** C10.  A reading without an accuracy is treated as one of accuracy
    0: the verdict is the one for accuracy 0, it is decided by the time
    check and the geofence test alone, and the note is never the one of
    the weak-signal override. *)
Theorem absent_accuracy_is_zero w id cp loc now :
  lookup id w = Some cp ->
  accuracy loc = None ->
  exists draft,
    pendingLog (scanner (scanned loc now id w)) = Some draft
    /\ status draft
       = fst (verdict (fst (timeCheck (schedule cp) now))
                      (snd (timeCheck (schedule cp) now))
                      0
                      (calculateDistance loc (location cp))
                      (allowedRadiusMeters cp))
    /\ status draft
       = match fst (timeCheck (schedule cp) now) with
         | TIME_INVALID => INVALID_TIME
         | TIME_VALID =>
             if Rleb (calculateDistance loc (location cp))
                     (allowedRadiusMeters cp)
             then VALID else INVALID_LOCATION
         end
    /\ forall acc, note draft <> Some (WeakGPS acc).
Proof.
  intros Hcp Hacc.
  destruct (handleSimulatedScan_drafts w id cp loc now Hcp)
    as (draft & Hpending & Hstatus & Hnote & _).
  exists draft; split; [ exact Hpending | ].
  rewrite Hstatus, Hnote; unfold verdictOf; rewrite Hacc, orR_None.
  assert (Hgood : Rgtb 0 100 = false) by (apply Rgtb_false; lra).
  unfold verdict; rewrite Hgood.
  split; [ reflexivity | ].
  destruct (timeCheck_note (schedule cp) now) as [Hn | (times & tol & Hn)];
    destruct (timeCheck (schedule cp) now) as [[|] timeNote];
    cbn [fst snd] in *; subst timeNote;
    try destruct (Rleb _ _); cbn [negb fst snd];
    (split; [ reflexivity | discriminate ]).
Qed.

End Verdict.

(** ** The distance: the formula over the real numbers *)

Section Distance.

Local Open Scope R_scope.

Lemma half_delta_same x : (x - x) * PI / 180 / 2 = 0.
Proof. field. Qed.

Lemma haversine_same A : haversine A A = 0.
Proof.
  unfold haversine.
  rewrite !half_delta_same, sin_0.
  ring.
Qed.

Lemma atan2_0_1 : atan2 0 1 = 0.
Proof.
  unfold atan2.
  destruct (Rlt_dec 0 1) as [_ | H]; [ | lra ].
  replace (0 / 1) with 0 by field.
  exact atan_0.
Qed.

Lemma atan2_1_0 : atan2 1 0 = PI / 2.
Proof.
  unfold atan2.
  destruct (Rlt_dec 0 0) as [H | _]; [ lra | ].
  destruct (Rlt_dec 0 1) as [_ | H]; [ reflexivity | lra ].
Qed.

(** The formula at a point and itself. *)
Lemma calculateDistance_same A : calculateDistance A A = 0.
Proof.
  unfold calculateDistance.
  rewrite haversine_same, Rminus_0_r, sqrt_0, sqrt_1, atan2_0_1.
  ring.
Qed.

(** Half way round the equator. *)
Lemma calculateDistance_antipodes acc1 acc2 :
  calculateDistance (mkCoordinates 0 0 acc1) (mkCoordinates 0 180 acc2)
  = 6371000 * PI.
Proof.
  unfold calculateDistance, haversine; cbn [latitude longitude].
  replace ((0 - 0) * PI / 180 / 2) with 0 by field.
  replace (0 * PI / 180) with 0 by field.
  replace ((180 - 0) * PI / 180 / 2) with (PI / 2) by field.
  rewrite sin_0, cos_0, sin_PI2.
  replace (0 * 0 + 1 * 1 * 1 * 1) with 1 by ring.
  rewrite Rminus_diag, sqrt_0, sqrt_1, atan2_1_0.
  field.
Qed.

End Distance.

(** ** Confirmation and pull *)

Section Store.

Lemma handleScanComplete_logs log w :
  logs (app (handleScanComplete log w)) = (logs (app w) ++ [log])%list.
Proof.
  unfold handleScanComplete, saveLogToSheet, sendToSheet; cbn.
  now destruct (String.eqb (GOOGLE_SCRIPT_URL w) "").
Qed.

Lemma display_name_not_empty name id : (name ++ " (" ++ id ++ ")")%string <> "".
Proof. destruct name; discriminate. Qed.

(** C8.  With a draft pending, a confirmation without a selected
    officer is refused: an alert is shown, the draft stays pending and
    the stored records are the same; a confirmation with a selected
    officer stores the records that were there followed by exactly one
    new record, which carries the status, time and distance of the
    draft and a non-empty officer. *)
Theorem confirmation_needs_an_officer w draft :
  pendingLog (scanner w) = Some draft ->
  (selectedOfficerId (scanner w) = "" ->
   logs (app (handleFinalSubmit handleScanComplete w)) = logs (app w)
   /\ pendingLog (scanner (handleFinalSubmit handleScanComplete w)) = Some draft
   /\ alerts (handleFinalSubmit handleScanComplete w)
      = (alerts w ++ ["Please select your name/ID from the list."])%list)
  /\ (selectedOfficerId (scanner w) <> "" ->
      exists record,
        logs (app (handleFinalSubmit handleScanComplete w))
        = (logs (app w) ++ [record])%list
        /\ status record = status draft
        /\ timestamp record = timestamp draft
        /\ distanceFromTarget record = distanceFromTarget draft
        /\ officerId record <> "").
Proof.
  intros Hpending; unfold handleFinalSubmit; rewrite Hpending.
  destruct (String.eqb_spec (selectedOfficerId (scanner w)) "") as [He | Hne];
    split; intros Hsel; try contradiction.
  - cbn; auto.
  - eexists; split; [ apply handleScanComplete_logs | ].
    cbn [status timestamp distanceFromTarget officerId].
    repeat split.
    destruct (find _ _); [ apply display_name_not_empty | assumption ].
Qed.

(** Without a pending draft a confirmation does nothing. *)
Lemma handleFinalSubmit_no_draft onScanComplete w :
  pendingLog (scanner w) = None -> handleFinalSubmit onScanComplete w = w.
Proof. intros H; unfold handleFinalSubmit; now rewrite H. Qed.

Lemma nonEmpty_true {A} (l : list A) : l <> [] -> nonEmpty l = true.
Proof. destruct l; [ contradiction | reflexivity ]. Qed.

Lemma nonEmpty_false {A} (l : list A) : l = [] -> nonEmpty l = false.
Proof. now intros ->. Qed.

(** What a pull leaves in each collection. *)
Lemma loadCloudData_collections cloud now w :
  GOOGLE_SCRIPT_URL w <> "" ->
  logs (app (loadCloudData cloud now w))
  = (if nonEmpty (cloud_logs cloud) then cloud_logs cloud else logs (app w))
  /\ officers (app (loadCloudData cloud now w))
     = (if nonEmpty (cloud_officers cloud)
        then cloud_officers cloud else officers (app w))
  /\ checkpoints (app (loadCloudData cloud now w))
     = (if nonEmpty (cloud_checkpoints cloud)
        then cloud_checkpoints cloud else checkpoints (app w)).
Proof.
  intros Hurl; unfold loadCloudData.
  apply String.eqb_neq in Hurl; rewrite Hurl.
  destruct (nonEmpty (cloud_logs cloud)),
           (nonEmpty (cloud_officers cloud)),
           (nonEmpty (cloud_checkpoints cloud)); cbn; auto.
Qed.

(** Without a script URL there is no pull. *)
Lemma loadCloudData_offline cloud now w :
  GOOGLE_SCRIPT_URL w = "" -> loadCloudData cloud now w = w.
Proof. intros H; unfold loadCloudData; now rewrite H. Qed.

(** C9.  A pull replaces each of the three local collections by the
    remote one when the remote one is non-empty, and leaves it as it
    was when the remote one is empty, each collection on its own. *)
Theorem pull_replaces_only_when_non_empty cloud now w :
  GOOGLE_SCRIPT_URL w <> "" ->
  ((cloud_logs cloud <> [] ->
    logs (app (loadCloudData cloud now w)) = cloud_logs cloud)
   /\ (cloud_logs cloud = [] ->
       logs (app (loadCloudData cloud now w)) = logs (app w)))
  /\ ((cloud_officers cloud <> [] ->
       officers (app (loadCloudData cloud now w)) = cloud_officers cloud)
      /\ (cloud_officers cloud = [] ->
          officers (app (loadCloudData cloud now w)) = officers (app w)))
  /\ ((cloud_checkpoints cloud <> [] ->
       checkpoints (app (loadCloudData cloud now w)) = cloud_checkpoints cloud)
      /\ (cloud_checkpoints cloud = [] ->
          checkpoints (app (loadCloudData cloud now w)) = checkpoints (app w))).
Proof.
  intros Hurl.
  destruct (loadCloudData_collections cloud now w Hurl) as (Hl & Ho & Hc).
  rewrite Hl, Ho, Hc.
  repeat split; intros H;
    first [ now rewrite (nonEmpty_true _ H) | now rewrite (nonEmpty_false _ H) ].
Qed.

End Store.

(** ** Runs on the built-in registries *)

Section Runs.

Local Open Scope R_scope.

(** The examples of the priority table: accuracy, distance, radius. *)
Example weak_signal_beats_distance :
  verdict TIME_VALID EmptyNote 150 60 50 = (VALID, WeakGPS 150).
Proof. apply verdict_weak_gps; lra. Qed.

Example sixty_meters_is_too_far :
  verdict TIME_VALID EmptyNote 20 60 50 = (INVALID_LOCATION, LocationMismatch 60).
Proof. apply verdict_far; lra. Qed.

Example on_the_radius_is_inside :
  verdict TIME_VALID EmptyNote 20 50 50 = (VALID, RoutineCheckOK).
Proof. apply verdict_near; lra. Qed.

Example accuracy_of_100_is_not_weak :
  verdict TIME_VALID EmptyNote 100 60 50 = (INVALID_LOCATION, LocationMismatch 60).
Proof. apply verdict_far; lra. Qed.

Example wrong_time_beats_weak_signal :
  fst (verdict TIME_INVALID EmptyNote 150 0 50) = INVALID_TIME.
Proof. reflexivity. Qed.

(** A scan of the far post from the other side of the earth. *)
Example far_post_scan :
  exists draft,
    pendingLog (scanner (scanned (mkCoordinates 0 0 (Some 20)) (clock 9 30)
                                 "cp-far" farWorld)) = Some draft
    /\ status draft = INVALID_LOCATION.
Proof.
  destruct (handleSimulatedScan_drafts farWorld "cp-far" farPost
              (mkCoordinates 0 0 (Some 20)) (clock 9 30) eq_refl)
    as (draft & Hpending & Hstatus & _).
  exists draft; split; [ exact Hpending | ].
  rewrite Hstatus; unfold verdictOf.
  cbn [schedule farPost timeCheck fst snd accuracy location allowedRadiusMeters].
  rewrite orR_Some, calculateDistance_antipodes, verdict_far;
    [ reflexivity | lra | pose proof PI2_1; lra ].
Qed.

(** The time check knows nothing of midnight: 23:55 with ten minutes
    either way does not admit 00:03. *)
Example no_wrap_at_midnight :
  fst (timeCheck (Some (mkScheduleConfig FIXED_TIME (Some ["23:55"%string])
                                         None (Some 10%Q)))
                 (clock 0 3)) = TIME_INVALID.
Proof. reflexivity. Qed.

(** C1 at the main gate at 09:30, with a reading taken at the gate
    itself and an accuracy of 150 meters. *)
Lemma late_scan_at_the_gate :
  lookup "cp-001" (initialWorld "") = Some mainEntranceGate
  /\ fst (timeCheck (schedule mainEntranceGate) (clock 9 30)) = TIME_INVALID
  /\ exists draft,
       pendingLog (scanner (scanned (readingAt mainEntranceGate (Some 150))
                                    (clock 9 30) "cp-001" (initialWorld "")))
       = Some draft
       /\ status draft = INVALID_TIME.
Proof.
  split; [ reflexivity | split; [ reflexivity | ] ].
  apply (schedule_failure_takes_precedence
           (initialWorld "") "cp-001" mainEntranceGate); reflexivity.
Defined.

(** C2 at the server room, with a reading taken at the main gate and an
    accuracy of 150 meters. *)
Lemma weak_signal_at_the_server_room :
  lookup "cp-002" (initialWorld "") = Some serverRoomB2
  /\ fst (timeCheck (schedule serverRoomB2) (clock 9 30)) = TIME_VALID
  /\ accuracy (readingAt mainEntranceGate (Some 150)) = Some 150
  /\ 150 > 100
  /\ exists draft,
       pendingLog (scanner (scanned (readingAt mainEntranceGate (Some 150))
                                    (clock 9 30) "cp-002" (initialWorld "")))
       = Some draft
       /\ status draft = VALID.
Proof.
  split; [ reflexivity | split; [ reflexivity | split; [ reflexivity | ] ] ].
  split; [ lra | ].
  apply (degraded_sensor_is_trusted
           (initialWorld "") "cp-002" serverRoomB2 _ _ 150);
    [ reflexivity | reflexivity | reflexivity | lra ].
Defined.

(** C3 at the server room, with a reading taken there and an accuracy of
    20 meters. *)
Lemma good_signal_at_the_server_room :
  lookup "cp-002" (initialWorld "") = Some serverRoomB2
  /\ fst (timeCheck (schedule serverRoomB2) (clock 9 30)) = TIME_VALID
  /\ (forall acc, accuracy (readingAt serverRoomB2 (Some 20)) = Some acc ->
                  acc <= 100)
  /\ exists draft,
       pendingLog (scanner (scanned (readingAt serverRoomB2 (Some 20))
                                    (clock 9 30) "cp-002" (initialWorld "")))
       = Some draft
       /\ distanceFromTarget draft
          = Some (calculateDistance (readingAt serverRoomB2 (Some 20))
                                    (location serverRoomB2))
       /\ (calculateDistance (readingAt serverRoomB2 (Some 20))
                             (location serverRoomB2)
           > allowedRadiusMeters serverRoomB2 ->
           status draft = INVALID_LOCATION)
       /\ (calculateDistance (readingAt serverRoomB2 (Some 20))
                             (location serverRoomB2)
           <= allowedRadiusMeters serverRoomB2 ->
           status draft = VALID).
Proof.
  assert (Hacc : forall acc,
             accuracy (readingAt serverRoomB2 (Some 20)) = Some acc ->
             acc <= 100)
    by (intros acc H; injection H as <-; lra).
  split; [ reflexivity | split; [ reflexivity | split; [ exact Hacc | ] ] ].
  apply (geofence_decides_with_a_good_sensor
           (initialWorld "") "cp-002" serverRoomB2);
    [ reflexivity | reflexivity | exact Hacc ].
Defined.

(** C5, amended, on the schedule of 08:00 with ten minutes either way,
    at 07:51. *)
Lemma eight_o_clock_schedule_is_within_tolerance :
  type eightOClock = FIXED_TIME
  /\ fixedTimes eightOClock = Some ["08:00"%string]
  /\ wellFormed ["08:00"%string]
  /\ toleranceMinutes eightOClock = Some 10%Q
  /\ (0 < 10)%Q
  /\ (fst (timeCheck (Some eightOClock) (clock 7 51)) = TIME_VALID
      <-> withinTolerance ["08:00"%string] (clock 7 51) 10%Q).
Proof.
  assert (Hwf : wellFormed ["08:00"%string]).
  { constructor; [ | constructor ].
    exists (8 * 60 + 0)%Z; apply (time_of_day 8 0); lia. }
  split; [ reflexivity | split; [ reflexivity | split; [ exact Hwf | ] ] ].
  split; [ reflexivity | split; [ reflexivity | ] ].
  apply (fixed_time_within_positive_tolerance
           eightOClock ["08:00"%string] 10%Q (clock 7 51));
    [ reflexivity | reflexivity | exact Hwf | reflexivity | reflexivity ].
Defined.

(** C6 at the server room, whose schedule is of type INTERVAL. *)
Lemma interval_schedule_at_the_server_room :
  lookup "cp-002" (initialWorld "") = Some serverRoomB2
  /\ (forall s, schedule serverRoomB2 = Some s ->
                type s = NONE \/ type s = INTERVAL)
  /\ fst (timeCheck (schedule serverRoomB2) (clock 3 0)) = TIME_VALID
  /\ exists draft,
       pendingLog (scanner (scanned (readingAt serverRoomB2 (Some 20))
                                    (clock 3 0) "cp-002" (initialWorld "")))
       = Some draft
       /\ status draft <> INVALID_TIME.
Proof.
  assert (Hs : forall s, schedule serverRoomB2 = Some s ->
                         type s = NONE \/ type s = INTERVAL)
    by (intros s H; injection H as <-; right; reflexivity).
  split; [ reflexivity | split; [ exact Hs | ] ].
  apply (no_time_window_no_invalid_time
           (initialWorld "") "cp-002" serverRoomB2);
    [ reflexivity | exact Hs ].
Defined.

(** C8 at the main gate: once with nobody selected, once with officer
    OFF-001 selected. *)
Lemma confirmation_at_the_gate :
  pendingLog (scanner (awaitingConfirmation "")) = Some gateDraft
  /\ logs (app (handleFinalSubmit handleScanComplete (awaitingConfirmation "")))
     = logs (app (awaitingConfirmation ""))
  /\ pendingLog (scanner (awaitingConfirmation "OFF-001")) = Some gateDraft
  /\ exists record,
       logs (app (handleFinalSubmit handleScanComplete
                                    (awaitingConfirmation "OFF-001")))
       = (logs (app (awaitingConfirmation "OFF-001")) ++ [record])%list
       /\ status record = status gateDraft.
Proof.
  split; [ reflexivity | split ].
  - exact (proj1 (proj1 (confirmation_needs_an_officer
                           (awaitingConfirmation "") gateDraft eq_refl)
                        eq_refl)).
  - split; [ reflexivity | ].
    destruct (proj2 (confirmation_needs_an_officer
                       (awaitingConfirmation "OFF-001") gateDraft eq_refl))
      as (record & Hlogs & Hstatus & _); [ discriminate | ].
    exists record; split; assumption.
Defined.

(** C9 on a pull that brings one officer and nothing else. *)
Lemma pull_of_one_officer :
  GOOGLE_SCRIPT_URL (awaitingConfirmation "") <> ""%string
  /\ logs (app (loadCloudData oneOfficerCloud (clock 8 0)
                              (awaitingConfirmation "")))
     = logs (app (awaitingConfirmation ""))
  /\ officers (app (loadCloudData oneOfficerCloud (clock 8 0)
                                  (awaitingConfirmation "")))
     = cloud_officers oneOfficerCloud
  /\ checkpoints (app (loadCloudData oneOfficerCloud (clock 8 0)
                                     (awaitingConfirmation "")))
     = DEFAULT_CHECKPOINTS.
Proof.
  assert (Hurl : GOOGLE_SCRIPT_URL (awaitingConfirmation "") <> ""%string)
    by discriminate.
  destruct (pull_replaces_only_when_non_empty
              oneOfficerCloud (clock 8 0) (awaitingConfirmation "") Hurl)
    as ((_ & Hlogs) & (Hofficers & _) & (_ & Hcheckpoints)).
  split; [ exact Hurl | split; [ | split ] ].
  - apply Hlogs; reflexivity.
  - apply Hofficers; discriminate.
  - apply Hcheckpoints; reflexivity.
Defined.

(** C10 at the main gate at 08:00, with a reading without accuracy. *)
Lemma no_accuracy_at_the_gate :
  lookup "cp-001" (initialWorld "") = Some mainEntranceGate
  /\ accuracy (readingAt mainEntranceGate None) = None
  /\ exists draft,
       pendingLog (scanner (scanned (readingAt mainEntranceGate None)
                                    (clock 8 0) "cp-001" (initialWorld "")))
       = Some draft
       /\ (forall acc, note draft <> Some (WeakGPS acc)).
Proof.
  split; [ reflexivity | split; [ reflexivity | ] ].
  destruct (absent_accuracy_is_zero
              (initialWorld "") "cp-001" mainEntranceGate
              (readingAt mainEntranceGate None) (clock 8 0)
              eq_refl eq_refl)
    as (draft & Hpending & _ & _ & Hnote).
  exists draft; split; assumption.
Defined.

End Runs.

(** * Properties of the rest of the code *)

(** ** From the scan to the stored record *)

Section Pipeline.

Local Open Scope R_scope.

(** The world after a scan that made a draft. *)
Lemma scanned_world w id cp loc now :
  lookup id w = Some cp ->
  scanned loc now id w
  = mkWorld (app w)
            (mkScannerState false false
               (if truthyR (accuracy loc)
                then accuracy loc else currentAccuracy (scanner w))
               (Some (draftOf cp loc now))
               (snd (verdictOf cp loc now)) false ""
               (hasAutoScanned (scanner w)))
            (GOOGLE_SCRIPT_URL w) (alerts w) (posted w).
Proof.
  unfold scanned, lookup, handleSimulatedScan, draftOf, verdictOf.
  cbn [app withScanner]; intros ->.
  destruct (timeCheck (schedule cp) now) as [timeStatus timeNote].
  destruct (verdict _ _ _ _ _) as [st autoNote].
  destruct (truthyR (accuracy loc)); reflexivity.
Qed.

Lemma handleSimulatedScan_frame sensed now mounted id w :
  app (handleSimulatedScan sensed now mounted id w) = app w
  /\ posted (handleSimulatedScan sensed now mounted id w) = posted w
  /\ GOOGLE_SCRIPT_URL (handleSimulatedScan sensed now mounted id w)
     = GOOGLE_SCRIPT_URL w.
Proof.
  unfold handleSimulatedScan, scanFailed; cbn [app withScanner].
  destruct (find _ _) as [cp|]; [ destruct sensed as [loc | message] | ].
  - destruct (timeCheck _ _), (verdict _ _ _ _ _), (truthyR _), mounted;
      now cbn.
  - destruct mounted; now cbn.
  - destruct mounted; now cbn.
Qed.

(** X1.  Whatever its outcome, a scan leaves the state of the
    application, the script URL and the requests posted as they were:
    only a confirmation stores or posts a record. *)
Theorem scan_keeps_the_store sensed now mounted id w :
  app (handleSimulatedScan sensed now mounted id w) = app w
  /\ posted (handleSimulatedScan sensed now mounted id w) = posted w
  /\ GOOGLE_SCRIPT_URL (handleSimulatedScan sensed now mounted id w)
     = GOOGLE_SCRIPT_URL w.
Proof. exact (handleSimulatedScan_frame sensed now mounted id w). Qed.

(** X2.  A scan of an identifier that is not in the registry, or whose
    reading does not arrive, makes no draft: the pending draft is the
    one there was.  While the component is mounted, exactly one alert
    is added and the scanner is left idle with its automatic scan used
    up; once it is unmounted, no alert is added and the two progress
    flags, set when the scan began, stay set. *)
Theorem failed_scan_is_reported sensed now mounted id w :
  lookup id w = None \/ (exists message, sensed = Rejected message) ->
  pendingLog (scanner (handleSimulatedScan sensed now mounted id w))
  = pendingLog (scanner w)
  /\ (mounted = true ->
      processing (scanner (handleSimulatedScan sensed now mounted id w)) = false
      /\ gpsLoading (scanner (handleSimulatedScan sensed now mounted id w)) = false
      /\ hasAutoScanned (scanner (handleSimulatedScan sensed now mounted id w))
         = true
      /\ exists errMessage,
           alerts (handleSimulatedScan sensed now mounted id w)
           = (alerts w ++ [("Error: " ++ errMessage)%string])%list)
  /\ (mounted = false ->
      processing (scanner (handleSimulatedScan sensed now mounted id w)) = true
      /\ gpsLoading (scanner (handleSimulatedScan sensed now mounted id w)) = true
      /\ hasAutoScanned (scanner (handleSimulatedScan sensed now mounted id w))
         = hasAutoScanned (scanner w)
      /\ alerts (handleSimulatedScan sensed now mounted id w) = alerts w).
Proof.
  unfold lookup, handleSimulatedScan, scanFailed; cbn [app withScanner].
  intros [Hnone | (message & ->)].
  - rewrite Hnone; destruct mounted; cbn;
      repeat split; intros; try discriminate; trivial; now eexists.
  - destruct (find _ _), mounted; cbn;
      repeat split; intros; try discriminate; trivial; now eexists.
Qed.

(** X3.  A fresh draft has no officer selected: submitting it as it is
    stores and posts nothing and shows the alert that asks for one. *)
Theorem fresh_draft_is_not_submitted w id cp loc now :
  lookup id w = Some cp ->
  handleFinalSubmit handleScanComplete (scanned loc now id w)
  = alert "Please select your name/ID from the list." (scanned loc now id w)
  /\ logs (app (handleFinalSubmit handleScanComplete (scanned loc now id w)))
     = logs (app w)
  /\ posted (handleFinalSubmit handleScanComplete (scanned loc now id w))
     = posted w.
Proof.
  intros Hcp; rewrite (scanned_world w id cp loc now Hcp).
  repeat split.
Qed.

(** X4.  A scan, the selection of an officer of the roster and a
    submission store exactly one more record: the draft of the scan
    under the display name of the officer.  The record is posted to
    the sheet if and only if a script URL is configured, no alert is
    shown, and the application returns to the dashboard. *)
Theorem scan_select_submit w id cp loc now oid o :
  lookup id w = Some cp ->
  oid <> ""%string ->
  find (fun u => String.eqb (user_id u) oid) (officers (app w)) = Some o ->
  let record := recordOf (draftOf cp loc now) (displayName o)
                         (snd (verdictOf cp loc now)) false in
  let w' := handleFinalSubmit handleScanComplete
              (selectOfficer oid (scanned loc now id w)) in
  logs (app w') = (logs (app w) ++ [record])%list
  /\ posted w'
     = (if String.eqb (GOOGLE_SCRIPT_URL w) ""
        then posted w else (posted w ++ [LOG record])%list)
  /\ alerts w' = alerts w
  /\ currentView (app w') = dashboard
  /\ initialScanId (app w') = None
  /\ checkpoints (app w') = checkpoints (app w)
  /\ officers (app w') = officers (app w).
Proof.
  intros Hcp Hoid Ho record w'; subst record w'.
  rewrite (scanned_world w id cp loc now Hcp).
  unfold handleFinalSubmit, selectOfficer; cbn [scanner withScanner pendingLog
    setSelectedOfficerId selectedOfficerId app noteText hasPhoto].
  apply String.eqb_neq in Hoid; rewrite Hoid, Ho.
  unfold handleScanComplete, saveLogToSheet, sendToSheet; cbn.
  destruct (String.eqb (GOOGLE_SCRIPT_URL w) ""); cbn; repeat split.
Qed.

(** X5.  An abandoned draft leaves no trace: after a scan and the
    Cancel button nothing has been stored or posted, no draft is
    pending, and a submission does nothing, whatever the callback. *)
Theorem abandoned_draft_leaves_no_trace sensed now mounted id w :
  app (cancelDraft (handleSimulatedScan sensed now mounted id w)) = app w
  /\ posted (cancelDraft (handleSimulatedScan sensed now mounted id w))
     = posted w
  /\ pendingLog (scanner (cancelDraft (handleSimulatedScan sensed now mounted id w)))
     = None
  /\ forall onScanComplete,
       handleFinalSubmit onScanComplete
         (cancelDraft (handleSimulatedScan sensed now mounted id w))
       = cancelDraft (handleSimulatedScan sensed now mounted id w).
Proof.
  destruct (handleSimulatedScan_frame sensed now mounted id w) as (Ha & Hp & _).
  repeat split; cbn; assumption.
Qed.

(** X6.  A link to a registered checkpoint opens the scanner, and the
    automatic scan that follows makes the draft of this checkpoint;
    after it the automatic scan does not start again, whatever
    happens. *)
Theorem deep_link_starts_one_scan w id cp loc now :
  lookup id w = Some cp ->
  id <> ""%string ->
  hasAutoScanned (scanner w) = false ->
  let opened := deepLink (Some id) w in
  let w' := autoScan true (Resolved loc) now true opened in
  currentView (app opened) = scanner_view
  /\ initialScanId (app opened) = Some id
  /\ alerts opened = alerts w
  /\ pendingLog (scanner w') = Some (draftOf cp loc now)
  /\ forall mountedAtTimer sensed now' mounted,
       autoScan mountedAtTimer sensed now' mounted w' = w'.
Proof.
  intros Hcp Hid Hauto opened w'.
  assert (Hopened : opened
                    = withApp (setCurrentView scanner_view)
                              (withApp (setInitialScanId (Some id)) w)).
  { subst opened; unfold deepLink.
    apply String.eqb_neq in Hid; rewrite Hid.
    unfold lookup in Hcp; now rewrite Hcp. }
  assert (Hw' : w' = scanned loc now id
                       (withScanner (setHasAutoScanned true) opened)).
  { subst w'; unfold autoScan; rewrite Hopened; cbn.
    apply String.eqb_neq in Hid; rewrite Hid, Hauto; reflexivity. }
  assert (Hlookup : lookup id (withScanner (setHasAutoScanned true) opened)
                    = Some cp)
    by (rewrite Hopened; exact Hcp).
  rewrite Hw', (scanned_world _ id cp loc now Hlookup), Hopened.
  repeat split.
  intros mountedAtTimer sensed now' mounted.
  unfold autoScan; cbn.
  apply String.eqb_neq in Hid; now rewrite Hid.
Qed.

(** X7.  A link to a checkpoint that is not in the registry changes
    nothing but for one alert, and no automatic scan follows it. *)
Theorem deep_link_to_unknown_checkpoint w id :
  lookup id w = None ->
  id <> ""%string ->
  initialScanId (app w) = None ->
  app (deepLink (Some id) w) = app w
  /\ scanner (deepLink (Some id) w) = scanner w
  /\ alerts (deepLink (Some id) w)
     = (alerts w
        ++ [("Error: Checkpoint ID " ++ dquote ++ id ++ dquote
             ++ " not found in system.")%string])%list
  /\ forall mountedAtTimer sensed now mounted,
       autoScan mountedAtTimer sensed now mounted (deepLink (Some id) w)
       = deepLink (Some id) w.
Proof.
  intros Hcp Hid Hinit; unfold deepLink, autoScan.
  apply String.eqb_neq in Hid; rewrite Hid.
  unfold lookup in Hcp; rewrite Hcp; cbn.
  rewrite Hinit; repeat split.
Qed.

End Pipeline.

(** ** The registries and the pull *)

Section Registries.

Lemma nonEmpty_app {A} (l : list A) (x : A) : nonEmpty (l ++ [x]) = true.
Proof. destruct l; reflexivity. Qed.

Lemma find_app_Some {A} (f : A -> bool) (l l' : list A) (x : A) :
  find f l = Some x -> find f (l ++ l') = Some x.
Proof.
  induction l as [|y l IH]; cbn; [ discriminate | ].
  destruct (f y); [ trivial | exact IH ].
Qed.

Lemma find_app_None {A} (f : A -> bool) (l l' : list A) :
  find f l = None -> find f (l ++ l') = find f l'.
Proof.
  induction l as [|y l IH]; cbn; [ trivial | ].
  destruct (f y); [ discriminate | exact IH ].
Qed.

Lemma filter_all {A} (f : A -> bool) (l : list A) :
  (forall x, In x l -> f x = true) -> filter f l = l.
Proof.
  induction l as [|y l IH]; cbn; intros H; [ reflexivity | ].
  rewrite (H y (or_introl eq_refl)), IH; [ reflexivity | ].
  intros x Hx; apply H; now right.
Qed.

(** The checkpoints after [handleAddCheckpoint]. *)
Lemma handleAddCheckpoint_checkpoints new cloud now w :
  cloud_checkpoints cloud = [] ->
  checkpoints (app (handleAddCheckpoint new cloud now w))
  = (checkpoints (app w) ++ [new])%list.
Proof.
  intros Hc; unfold handleAddCheckpoint, addCheckpointToSheet, sendToSheet,
    loadCloudData.
  destruct (String.eqb (GOOGLE_SCRIPT_URL w) "") eqn:Hurl;
    repeat (cbn; rewrite Hurl); [ reflexivity | ].
  rewrite Hc; cbn.
  destruct (nonEmpty (cloud_logs cloud)), (nonEmpty (cloud_officers cloud));
    reflexivity.
Qed.

(** X8.  Two pulls in a row are one pull of their answers merged: per
    collection the later answer if it is non-empty, the earlier one
    otherwise.  In particular a pull repeated changes nothing. *)
Theorem two_pulls_are_one first second now1 now2 w :
  loadCloudData second now2 (loadCloudData first now1 w)
  = loadCloudData (mergeCloud first second) now2 w
  /\ loadCloudData first now1 (loadCloudData first now1 w)
     = loadCloudData first now1 w.
Proof.
  unfold loadCloudData, mergeCloud.
  destruct (String.eqb (GOOGLE_SCRIPT_URL w) "") eqn:Hurl;
    [ rewrite !Hurl; split; reflexivity | ].
  split.
  - destruct (nonEmpty (cloud_logs first)) eqn:L1,
             (nonEmpty (cloud_officers first)) eqn:O1,
             (nonEmpty (cloud_checkpoints first)) eqn:C1;
      cbn; rewrite Hurl;
      destruct (nonEmpty (cloud_logs second)) eqn:L2,
               (nonEmpty (cloud_officers second)) eqn:O2,
               (nonEmpty (cloud_checkpoints second)) eqn:C2;
      cbn; rewrite ?L1, ?O1, ?C1, ?L2, ?O2, ?C2; reflexivity.
  - destruct (nonEmpty (cloud_logs first)) eqn:L1,
             (nonEmpty (cloud_officers first)) eqn:O1,
             (nonEmpty (cloud_checkpoints first)) eqn:C1;
      cbn; rewrite Hurl, ?L1, ?O1, ?C1; reflexivity.
Qed.

(** X9.  The pull that follows a confirmation decides what is left of
    the record: if it brings any logs, the local logs are those of the
    sheet and the record is among them only if the sheet has it; if it
    brings none, the record stays at the end of the local logs. *)
Theorem pull_after_confirmation log cloud now w :
  GOOGLE_SCRIPT_URL w <> ""%string ->
  (cloud_logs cloud <> [] ->
   logs (app (loadCloudData cloud now (handleScanComplete log w)))
   = cloud_logs cloud)
  /\ (cloud_logs cloud = [] ->
      logs (app (loadCloudData cloud now (handleScanComplete log w)))
      = (logs (app w) ++ [log])%list)
  /\ posted (loadCloudData cloud now (handleScanComplete log w))
     = (posted w ++ [LOG log])%list.
Proof.
  intros Hurl; apply String.eqb_neq in Hurl.
  unfold loadCloudData, handleScanComplete, saveLogToSheet, sendToSheet.
  cbn; rewrite Hurl; cbn; rewrite Hurl.
  destruct (cloud_logs cloud) as [|l ls]; cbn;
    destruct (nonEmpty (cloud_officers cloud)),
             (nonEmpty (cloud_checkpoints cloud)); cbn;
    repeat split; intros; congruence.
Qed.

(** X10.  Removing an officer, once confirmed, posts the removal; if
    the pull that follows brings no officers, the roster is the one
    there was without the officers of this id; if it brings some, the
    roster is that of the sheet, whether or not it still has the
    officer.  A removal that is not confirmed does nothing. *)
Theorem remove_officer_then_pull id cloud now w :
  GOOGLE_SCRIPT_URL w <> ""%string ->
  posted (handleRemoveOfficer id true cloud now w)
  = (posted w ++ [REMOVE_OFFICER id])%list
  /\ (cloud_officers cloud = [] ->
      forall o, In o (officers (app (handleRemoveOfficer id true cloud now w)))
                <-> In o (officers (app w)) /\ user_id o <> id)
  /\ (cloud_officers cloud <> [] ->
      officers (app (handleRemoveOfficer id true cloud now w))
      = cloud_officers cloud)
  /\ handleRemoveOfficer id false cloud now w = w.
Proof.
  intros Hurl; apply String.eqb_neq in Hurl.
  unfold handleRemoveOfficer, removeOfficerFromSheet, sendToSheet, loadCloudData.
  cbn; rewrite Hurl; cbn; rewrite Hurl.
  destruct (cloud_officers cloud) as [|o' os]; cbn;
    destruct (nonEmpty (cloud_logs cloud)),
             (nonEmpty (cloud_checkpoints cloud)); cbn;
    repeat split; try congruence; intros;
    rewrite ?filter_In, ?negb_true_iff, ?String.eqb_neq in *; tauto.
Qed.

(** X11.  Without a script URL, adding an officer whose id is not in
    the roster and removing this id again gives back the world there
    was: nothing is posted and no pull is made. *)
Theorem add_then_remove_officer_offline new cloud1 now1 cloud2 now2 w :
  GOOGLE_SCRIPT_URL w = ""%string ->
  (forall o, In o (officers (app w)) -> user_id o <> user_id new) ->
  handleRemoveOfficer (user_id new) true cloud2 now2
    (handleAddOfficer new cloud1 now1 w)
  = w.
Proof.
  intros Hurl Hfresh.
  unfold handleRemoveOfficer, handleAddOfficer, removeOfficerFromSheet,
    addOfficerToSheet, sendToSheet, loadCloudData.
  cbn; rewrite Hurl; cbn; rewrite Hurl; cbn; rewrite Hurl; cbn; rewrite Hurl.
  destruct w as [[v l i sy t cps os] sc url al po]; cbn in *.
  unfold withApp, setOfficers; cbn.
  rewrite filter_app; cbn.
  rewrite String.eqb_refl; cbn.
  rewrite filter_all, app_nil_r; [ reflexivity | ].
  intros o Ho; apply negb_true_iff, String.eqb_neq; now apply Hfresh.
Qed.

(** X12.  After a checkpoint has been added (and the pull that follows
    has brought no checkpoints), every identifier that resolved before
    resolves to the same checkpoint, and the identifier of the new
    checkpoint, if it did not resolve before, resolves to the new
    checkpoint. *)
Theorem added_checkpoint_resolves new cloud now w :
  cloud_checkpoints cloud = [] ->
  (forall id cp, lookup id w = Some cp ->
                 lookup id (handleAddCheckpoint new cloud now w) = Some cp)
  /\ (lookup (cp_id new) w = None ->
      lookup (cp_id new) (handleAddCheckpoint new cloud now w) = Some new).
Proof.
  intros Hc; unfold lookup.
  rewrite (handleAddCheckpoint_checkpoints new cloud now w Hc).
  split.
  - intros id cp H; now apply find_app_Some.
  - intros H; rewrite (find_app_None _ _ _ H); cbn.
    now rewrite String.eqb_refl.
Qed.

End Registries.

(** ** The dashboard *)

Section Dashboard.

Lemma countStatus_cons st l logs :
  countStatus st (l :: logs)
  = ((if ScanStatus_eqb (status l) st then 1 else 0) + countStatus st logs)%nat.
Proof.
  unfold countStatus; cbn.
  now destruct (ScanStatus_eqb (status l) st).
Qed.

Lemma countStatus_app st logs logs' :
  countStatus st (logs ++ logs')
  = (countStatus st logs + countStatus st logs')%nat.
Proof.
  unfold countStatus; now rewrite filter_app, length_app.
Qed.

Lemma ScanStatus_eqb_eq a b : ScanStatus_eqb a b = true <-> a = b.
Proof. destruct a, b; cbn; split; congruence. Qed.

Lemma countStatus_zero st logs :
  countStatus st logs = 0%nat <-> forall l, In l logs -> status l <> st.
Proof.
  induction logs as [|l logs IH]; [ now split | ].
  rewrite countStatus_cons; split.
  - intros H x [<- | Hx].
    + intros E; apply ScanStatus_eqb_eq in E; rewrite E in H; discriminate.
    + apply IH; [ | exact Hx ].
      destruct (ScanStatus_eqb (status l) st); [ discriminate | exact H ].
  - intros H.
    destruct (ScanStatus_eqb (status l) st) eqn:E.
    + apply ScanStatus_eqb_eq in E; now destruct (H l (or_introl eq_refl)).
    + apply IH; intros x Hx; apply H; now right.
Qed.

(** X13.  The four counters of the dashboard and the records of status
    INVALID_TIME add up to the total: a record rejected for its time is
    counted in the total and in no counter, so confirming one raises
    the total by one and leaves the four counters as they were. *)
Theorem invalid_time_is_in_no_counter logs :
  (validScans logs + invalidScans logs + issueScans logs + lateScans logs
   + countStatus INVALID_TIME logs = List.length logs)%nat
  /\ forall record,
       status record = INVALID_TIME ->
       List.length (logs ++ [record]) = S (List.length logs)
       /\ validScans (logs ++ [record]) = validScans logs
       /\ invalidScans (logs ++ [record]) = invalidScans logs
       /\ issueScans (logs ++ [record]) = issueScans logs
       /\ lateScans (logs ++ [record]) = lateScans logs.
Proof.
  unfold validScans, invalidScans, issueScans, lateScans; split.
  - induction logs as [|l logs IH]; [ reflexivity | ].
    rewrite !countStatus_cons; cbn [List.length].
    destruct (status l); cbn; lia.
  - intros record Hr.
    rewrite length_app, !countStatus_app; unfold countStatus at 2 4 6 8.
    cbn; rewrite Hr; cbn; lia.
Qed.

(** X14.  The chart has a slice for a category exactly when its
    counter is above 0; it has no slice at all, and the dashboard says
    that there is no data, exactly when every record has status
    INVALID_TIME (in particular when there is no record). *)
Theorem chart_of_the_counters logs :
  Forall (fun d => (0 < snd d)%nat) (chartData logs)
  /\ (chartData logs = []
      <-> forall l, In l logs -> status l = INVALID_TIME).
Proof.
  split.
  - unfold chartData; apply Forall_forall; intros d Hd.
    apply filter_In in Hd; destruct Hd as [_ Hd].
    now apply Nat.ltb_lt in Hd.
  - unfold chartData, validScans, invalidScans, issueScans, lateScans; split.
    + intros H l Hl.
      assert (Hz : forall st, st <> INVALID_TIME -> countStatus st logs = 0%nat).
      { intros st Hst; cbn in H.
        destruct (countStatus VALID logs) eqn:V; [ | discriminate ].
        destruct (countStatus INVALID_LOCATION logs) eqn:I; [ | discriminate ].
        destruct (countStatus ISSUE_REPORTED logs) eqn:S; [ | discriminate ].
        destruct (countStatus LATE logs) eqn:L; [ | discriminate ].
        destruct st; congruence. }
      destruct (status l) eqn:E; try reflexivity;
        exfalso;
        refine (proj1 (countStatus_zero _ logs) (Hz _ _) l Hl E);
        discriminate.
    + intros H.
      assert (Hz : forall st, st <> INVALID_TIME -> countStatus st logs = 0%nat).
      { intros st Hst; apply countStatus_zero; intros l Hl E.
        rewrite (H l Hl) in E; congruence. }
      cbn; rewrite !Hz by discriminate; reflexivity.
Qed.

(** X15.  The colours of the chart go by position, not by category:
    when no record is VALID and some record is INVALID_LOCATION, the
    first slice is the one of the rejected locations, and it is drawn
    in the first colour, the one that a slice of valid scans has. *)
Theorem rejected_slice_in_the_first_colour logs :
  validScans logs = 0%nat ->
  (0 < invalidScans logs)%nat ->
  nth_error (chartData logs) 0
  = Some ("Invalid/Distance"%string, invalidScans logs)
  /\ (forall logs', (0 < validScans logs')%nat ->
                    exists n, nth_error (chartData logs') 0
                              = Some ("Valid"%string, n))
  /\ cellFill 0 = "#10b981"%string.
Proof.
  intros Hv Hi; unfold chartData; repeat split.
  - apply Nat.ltb_lt in Hi.
    cbn [filter snd]; rewrite Hv, Hi; reflexivity.
  - intros logs' Hv'; apply Nat.ltb_lt in Hv'.
    cbn [filter snd]; rewrite Hv'; now eexists.
Qed.

End Dashboard.

(** ** The report of a draft *)

Section Report.

Local Open Scope R_scope.

Lemma floor_bounds x : IZR (floor x) <= x < IZR (floor x) + 1.
Proof. unfold floor; pose proof (base_Int_part x); lra. Qed.

Lemma floor_ge z x : (z <= floor x)%Z <-> IZR z <= x.
Proof.
  pose proof (floor_bounds x) as [Hl Hu]; split; intros H.
  - apply IZR_le in H; lra.
  - assert (Hlt : IZR z < IZR (floor x + 1)) by (rewrite plus_IZR; lra).
    apply lt_IZR in Hlt; lia.
Qed.

Lemma floor_IZR z : floor (IZR z) = z.
Proof.
  pose proof (floor_bounds (IZR z)) as [Hl Hu].
  apply le_IZR in Hl.
  assert (Hlt : IZR z < IZR (floor (IZR z) + 1)) by (rewrite plus_IZR; lra).
  apply lt_IZR in Hlt; lia.
Qed.

(** [Math.round(x) > 100] from 100.5 on. *)
Lemma round_above_100 x : (100 <? round x)%Z = true <-> 100.5 <= x.
Proof.
  rewrite Z.ltb_lt; unfold round.
  assert (E : (100 < floor (x + / 2))%Z <-> (101 <= floor (x + / 2))%Z) by lia.
  rewrite E, floor_ge; lra.
Qed.

(** X16.  On the report of a draft whose time check passed, the line
    about the weak signal is shown exactly from an accuracy of 100.5
    meters on, while the scan is accepted on the weak signal from any
    accuracy above 100 meters on: between the two the override decides
    and the report does not say so. *)
Theorem weak_signal_line_from_100_5 w id cp loc now acc :
  lookup id w = Some cp ->
  fst (timeCheck (schedule cp) now) = TIME_VALID ->
  accuracy loc = Some acc ->
  exists draft,
    pendingLog (scanner (scanned loc now id w)) = Some draft
    /\ (showsWeakSignal draft = true <-> 100.5 <= acc)
    /\ (note draft = Some (WeakGPS acc) <-> 100 < acc)
    /\ (100 < acc -> status draft = VALID).
Proof.
  intros Hcp Htime Hacc.
  rewrite (scanned_world w id cp loc now Hcp); cbn [scanner pendingLog].
  eexists; split; [ reflexivity | ].
  unfold showsWeakSignal, isWeakSignal, reportAccuracy, draftOf, verdictOf.
  cbn [status note userLocation]; rewrite Htime, Hacc, orR_Some.
  destruct (Rle_dec acc 100) as [Hle | Hgt].
  - assert (Hv : exists st n, verdict TIME_VALID
                   (snd (timeCheck (schedule cp) now)) acc
                   (calculateDistance loc (location cp))
                   (allowedRadiusMeters cp) = (st, n)
                 /\ n <> WeakGPS acc).
    { destruct (Rle_dec (calculateDistance loc (location cp))
                        (allowedRadiusMeters cp)).
      - rewrite verdict_near by assumption; eexists _, _; split;
          [ reflexivity | discriminate ].
      - rewrite verdict_far by lra; eexists _, _; split;
          [ reflexivity | discriminate ]. }
    destruct Hv as (st & n & -> & Hn); cbn [fst snd].
    assert (Hr : (100 <? (if truthyR (Some acc) then round acc else 0))%Z = false).
    { destruct (truthyR (Some acc)); [ | reflexivity ].
      destruct (100 <? round acc)%Z eqn:E; [ | reflexivity ].
      apply round_above_100 in E; lra. }
    rewrite Hr, andb_false_r; cbn.
    repeat split; intros; try congruence; try lra.
  - rewrite verdict_weak_gps by lra; cbn [fst snd ScanStatus_eqb andb negb].
    assert (Ht : truthyR (Some acc) = true).
    { unfold truthyR; destruct (Req_dec_T acc 0); [ lra | reflexivity ]. }
    rewrite Ht, andb_true_r, round_above_100.
    repeat split; intros; try reflexivity; lra.
Qed.

End Report.

(** ** The time check, further *)

Section ScheduleEdges.

Lemma inWindow_empty current tolerance :
  inWindow current tolerance "" = false.
Proof. reflexivity. Qed.

Lemma existsb_all_empty current tolerance times :
  Forall (fun t => t = ""%string) times ->
  existsb (inWindow current tolerance) times = false.
Proof.
  induction 1 as [|t times Ht _ IH]; [ reflexivity | ].
  subst t; cbn [existsb]; now rewrite inWindow_empty, IH.
Qed.

(** X17.  A FIXED_TIME schedule without a tolerance, or with a
    tolerance of 0, is checked with a tolerance of ten minutes: the
    time check passes if and only if some entry is at most ten minutes
    of the day away from now. *)
Theorem default_tolerance_is_ten s times now :
  type s = FIXED_TIME ->
  fixedTimes s = Some times -> wellFormed times ->
  toleranceMinutes s = None
  \/ (exists tolerance, toleranceMinutes s = Some tolerance
                        /\ (tolerance == 0)%Q) ->
  fst (timeCheck (Some s) now) = TIME_VALID
  <-> withinTolerance times now 10%Q.
Proof.
  intros Hty Hft Hwf Htol.
  rewrite (timeCheck_fixed_time s times now Hty Hft Hwf).
  destruct Htol as [Hnone | (tolerance & Hsome & Hz)].
  - now rewrite (toleranceOf_absent s Hnone).
  - now rewrite (toleranceOf_zero s tolerance Hsome Hz).
Qed.

(** X18.  A FIXED_TIME schedule whose list of times is empty, or holds
    only empty strings (what a cleared time input gives), admits no
    scan: at every time, with every tolerance and every reading, the
    draft has status INVALID_TIME. *)
Theorem schedule_without_times_admits_no_scan w id cp s times loc now :
  lookup id w = Some cp ->
  schedule cp = Some s ->
  type s = FIXED_TIME ->
  fixedTimes s = Some times ->
  Forall (fun t => t = ""%string) times ->
  fst (timeCheck (schedule cp) now) = TIME_INVALID
  /\ exists draft,
       pendingLog (scanner (scanned loc now id w)) = Some draft
       /\ status draft = INVALID_TIME.
Proof.
  intros Hcp Hs Hty Hft Hempty.
  assert (Htime : fst (timeCheck (schedule cp) now) = TIME_INVALID).
  { rewrite Hs; unfold timeCheck; rewrite Hty, Hft.
    now rewrite (existsb_all_empty _ _ _ Hempty). }
  split; [ exact Htime | ].
  destruct (handleSimulatedScan_drafts w id cp loc now Hcp)
    as (draft & Hpending & Hstatus & _).
  exists draft; split; [ exact Hpending | ].
  rewrite Hstatus; unfold verdictOf; now rewrite Htime.
Qed.

End ScheduleEdges.

(** ** The schedule form of the administrator *)

Section ScheduleForm.

Lemma filterIndex_skip {A} (idx k : nat) (l : list A) :
  (idx < k)%nat ->
  filterIndex (fun i => negb (Nat.eqb i idx)) k l = l.
Proof.
  revert k; induction l as [|x l IH]; intros k Hk; cbn; [ reflexivity | ].
  destruct (Nat.eqb_spec k idx) as [E | _]; [ lia | cbn ].
  now rewrite IH by lia.
Qed.

Lemma filterIndex_remove {A} (idx k : nat) (l : list A) :
  (k <= idx)%nat ->
  filterIndex (fun i => negb (Nat.eqb i idx)) k l
  = (firstn (idx - k) l ++ skipn (S (idx - k)) l)%list.
Proof.
  revert k; induction l as [|x l IH]; intros k Hk; cbn.
  - now rewrite firstn_nil.
  - destruct (Nat.eqb_spec k idx) as [-> | Hne]; cbn.
    + rewrite Nat.sub_diag; cbn.
      apply filterIndex_skip; lia.
    + rewrite IH by lia.
      replace (idx - k)%nat with (S (idx - S k)) by lia.
      reflexivity.
Qed.

Lemma handleRemoveFixedTime_spec idx times :
  handleRemoveFixedTime idx times
  = (firstn idx times ++ skipn (S idx) times)%list.
Proof.
  unfold handleRemoveFixedTime.
  rewrite filterIndex_remove by lia; now rewrite Nat.sub_0_r.
Qed.

Lemma handleRemoveFixedTime_length idx times :
  (idx < List.length times)%nat ->
  S (List.length (handleRemoveFixedTime idx times)) = List.length times.
Proof.
  intros H; rewrite handleRemoveFixedTime_spec.
  rewrite length_app, length_firstn, length_skipn; lia.
Qed.

Lemma assignIndex_spec idx val times :
  match assignIndex idx val times with
  | Some updated =>
      (idx < List.length times)%nat
      /\ updated = (firstn idx times ++ val :: skipn (S idx) times)%list
  | None => (List.length times <= idx)%nat
  end.
Proof.
  revert idx; induction times as [|t times IH]; intros idx; cbn.
  - destruct idx; cbn; lia.
  - destruct idx as [|idx]; cbn; [ split; [ lia | reflexivity ] | ].
    specialize (IH idx); destruct (assignIndex idx val times) as [rest|].
    + destruct IH as [Hlt ->]; split; [ lia | reflexivity ].
    + lia.
Qed.

Lemma formStep_non_empty times e : times <> [] -> formStep times e <> [].
Proof.
  intros Hne; destruct e as [| idx val | idx]; unfold formStep.
  - unfold handleAddFixedTime; destruct times; discriminate.
  - unfold handleFixedTimeChange.
    pose proof (assignIndex_spec idx val times) as H.
    destruct (assignIndex idx val times) as [updated|]; [ | exact Hne ].
    destruct H as [_ ->]; intros E.
    apply (f_equal (@List.length string)) in E.
    rewrite length_app in E; cbn in E; lia.
  - destruct (1 <? List.length times)%nat eqn:H1; cbn [andb]; [ | exact Hne ].
    destruct (idx <? List.length times)%nat eqn:H2; [ | exact Hne ].
    apply Nat.ltb_lt in H1, H2.
    pose proof (handleRemoveFixedTime_length idx times H2) as Hl.
    intros E; rewrite E in Hl; cbn in Hl; lia.
Qed.

(** X19.  Every checkpoint of the form has a tolerance of fifteen
    minutes.  With the type FIXED_TIME its time check passes if and
    only if some entry is at most fifteen minutes of the day away from
    now; with the types NONE and INTERVAL the schedule carries no times
    and the time check passes at every time. *)
Theorem form_schedule_window scheduleType intervalMins times now :
  toleranceMinutes (formSchedule scheduleType intervalMins times) = Some 15%Q
  /\ (scheduleType = FIXED_TIME -> wellFormed times ->
      (fst (timeCheck (Some (formSchedule scheduleType intervalMins times)) now)
       = TIME_VALID
       <-> withinTolerance times now 15%Q))
  /\ (scheduleType <> FIXED_TIME ->
      fixedTimes (formSchedule scheduleType intervalMins times) = None
      /\ timeCheck (Some (formSchedule scheduleType intervalMins times)) now
         = (TIME_VALID, EmptyNote)).
Proof.
  split; [ reflexivity | split ].
  - intros -> Hwf.
    exact (timeCheck_fixed_time (formSchedule FIXED_TIME intervalMins times)
                                times now eq_refl eq_refl Hwf).
  - intros Hty; destruct scheduleType; try contradiction; split; reflexivity.
Qed.

(** X20.  Whatever the operator does to the list of times of the form
    (add a time, change the time of an input, remove a time with the
    button that is there while the list has more than one entry), the
    list has at least one entry: a FIXED_TIME checkpoint of the form
    never has an empty list of times. *)
Theorem form_times_are_never_empty events :
  editFixedTimes events <> []
  /\ forall intervalMins,
       exists times,
         fixedTimes (formSchedule FIXED_TIME intervalMins (editFixedTimes events))
         = Some times
         /\ times <> [].
Proof.
  assert (H : forall events times,
             times <> [] -> fold_left formStep events times <> []).
  { clear events; induction events as [|e events IH]; intros times Hne; cbn.
    - exact Hne.
    - apply IH; now apply formStep_non_empty. }
  assert (Hne : editFixedTimes events <> [])
    by (apply H; discriminate).
  split; [ exact Hne | ].
  intros intervalMins; eexists; split; [ reflexivity | exact Hne ].
Qed.

(** X21.  Removing the time at a position drops this entry and keeps
    the others in order, and does nothing at a position that the list
    does not have; changing the time at a position of the list replaces
    this entry and keeps the others; removing the entry that has just
    been added gives back the list. *)
Theorem fixed_time_edits idx val times :
  ((idx < List.length times)%nat ->
   handleRemoveFixedTime idx times
   = (firstn idx times ++ skipn (S idx) times)%list
   /\ handleFixedTimeChange idx val times
      = Some (firstn idx times ++ val :: skipn (S idx) times)%list)
  /\ ((List.length times <= idx)%nat ->
      handleRemoveFixedTime idx times = times)
  /\ handleRemoveFixedTime (List.length times) (handleAddFixedTime times)
     = times.
Proof.
  repeat split.
  - apply handleRemoveFixedTime_spec.
  - unfold handleFixedTimeChange.
    pose proof (assignIndex_spec idx val times) as Hs.
    destruct (assignIndex idx val times) as [updated|]; [ | lia ].
    now destruct Hs as [_ ->].
  - intros Hge; rewrite handleRemoveFixedTime_spec.
    rewrite firstn_all2, skipn_all2 by lia; apply app_nil_r.
  - rewrite handleRemoveFixedTime_spec; unfold handleAddFixedTime.
    rewrite skipn_all2 by (rewrite length_app; cbn; lia).
    rewrite firstn_app, Nat.sub_diag, firstn_all; cbn.
    now rewrite !app_nil_r.
Qed.

End ScheduleForm.

(** ** The grid reference *)

Section Geodesy.

Local Open Scope R_scope.

Lemma floor_unique z x : IZR z <= x < IZR z + 1 -> floor x = z.
Proof.
  intros [Hl Hu]; pose proof (floor_bounds x) as [Fl Fu].
  assert (H1 : IZR z < IZR (floor x + 1)) by (rewrite plus_IZR; lra).
  assert (H2 : IZR (floor x) < IZR (z + 1)) by (rewrite plus_IZR; lra).
  apply lt_IZR in H1, H2; lia.
Qed.

Lemma zoneNumber_central z : zoneNumber (IZR (6 * z - 183)) = z.
Proof.
  unfold zoneNumber.
  rewrite (floor_unique (z - 1)); [ lia | ].
  rewrite !minus_IZR, mult_IZR; lra.
Qed.

Lemma utmA_central lat z : utmA lat (IZR (6 * z - 183)) = 0.
Proof.
  unfold utmA, centralMeridian; rewrite zoneNumber_central.
  replace ((z - 1) * 6 - 180 + 3)%Z with (6 * z - 183)%Z by lia.
  ring.
Qed.

Lemma easting_central lat z : easting lat (IZR (6 * z - 183)) = 500000.
Proof. unfold easting; rewrite utmA_central; field. Qed.

Lemma northing_equator_central z : northing 0 (IZR (6 * z - 183)) = 0.
Proof.
  unfold northing; rewrite utmA_central.
  destruct (Rge_dec 0 0) as [_ | H]; [ | lra ].
  unfold utmM; rewrite Rmult_0_l.
  replace (2 * 0) with 0 by ring; replace (4 * 0) with 0 by ring;
    replace (6 * 0) with 0 by ring.
  rewrite sin_0, tan_0; field.
Qed.

(** X24.  On the central meridian of a zone, the longitude 6z - 183,
    and at a latitude within the limits, the grid reference names the
    zone z and the easting 500000; on the equator its northing is
    0. *)
Theorem utm_on_a_central_meridian lat z :
  -80 <= lat <= 84 ->
  latLonToUtm lat (IZR (6 * z - 183))
  = ("Zone " ++ Js.toString z ++ " | E: 500000 N: "
     ++ Js.toString (floor (northing lat (IZR (6 * z - 183)))))%string
  /\ latLonToUtm 0 (IZR (6 * z - 183))
     = ("Zone " ++ Js.toString z ++ " | E: 500000 N: 0")%string.
Proof.
  intros [Hl Hu].
  assert (Hin : forall lat', -80 <= lat' <= 84 ->
                  negb (Rleb (-80) lat' && Rleb lat' 84) = false).
  { intros lat' [Hl' Hu'].
    apply Rleb_true in Hl', Hu'; now rewrite Hl', Hu'. }
  unfold latLonToUtm.
  rewrite (Hin lat (conj Hl Hu)), (Hin 0) by lra.
  rewrite zoneNumber_central, !easting_central, northing_equator_central.
  replace 500000 with (IZR 500000) by reflexivity.
  replace 0 with (IZR 0) at 2 by reflexivity.
  rewrite !floor_IZR.
  split; reflexivity.
Qed.

End Geodesy.

(** ** Further runs *)

Section FurtherRuns.

Local Open Scope R_scope.

Lemma wellFormed_0800 : wellFormed ["08:00"%string].
Proof.
  constructor; [ | constructor ].
  exists (8 * 60 + 0)%Z; apply (time_of_day 8 0); lia.
Qed.

(** X2 on the identifier cp-999, which the built-in registry does not
    have: once with the scanner mounted, once after it has been
    closed. *)
Lemma unknown_code_is_reported :
  (lookup "cp-999" (initialWorld "") = None
   \/ exists message,
        Resolved (readingAt mainEntranceGate None) = Rejected message)
  /\ pendingLog (scanner (handleSimulatedScan
                            (Resolved (readingAt mainEntranceGate None))
                            (clock 8 0) true "cp-999" (initialWorld "")))
     = None
  /\ (exists errMessage,
        alerts (handleSimulatedScan
                  (Resolved (readingAt mainEntranceGate None))
                  (clock 8 0) true "cp-999" (initialWorld ""))
        = ([] ++ [("Error: " ++ errMessage)%string])%list)
  /\ alerts (handleSimulatedScan
               (Resolved (readingAt mainEntranceGate None))
               (clock 8 0) false "cp-999" (initialWorld ""))
     = [].
Proof.
  assert (H : lookup "cp-999" (initialWorld "") = None
              \/ exists message,
                   Resolved (readingAt mainEntranceGate None) = Rejected message)
    by (left; reflexivity).
  destruct (failed_scan_is_reported
              (Resolved (readingAt mainEntranceGate None))
              (clock 8 0) true "cp-999" (initialWorld "") H)
    as (Hpending & Hmounted & _).
  destruct (Hmounted eq_refl) as (_ & _ & _ & Halert).
  destruct (failed_scan_is_reported
              (Resolved (readingAt mainEntranceGate None))
              (clock 8 0) false "cp-999" (initialWorld "") H)
    as (_ & _ & Hunmounted).
  destruct (Hunmounted eq_refl) as (_ & _ & _ & Hquiet).
  split; [ exact H | split; [ exact Hpending | split; [ exact Halert | exact Hquiet ] ] ].
Defined.

(** X3 at the server room. *)
Lemma fresh_draft_at_the_server_room :
  lookup "cp-002" (initialWorld DEFAULT_SCRIPT_URL) = Some serverRoomB2
  /\ logs (app (handleFinalSubmit handleScanComplete
                  (scanned (readingAt serverRoomB2 (Some 20)) (clock 9 30)
                           "cp-002" (initialWorld DEFAULT_SCRIPT_URL))))
     = []
  /\ posted (handleFinalSubmit handleScanComplete
               (scanned (readingAt serverRoomB2 (Some 20)) (clock 9 30)
                        "cp-002" (initialWorld DEFAULT_SCRIPT_URL)))
     = [].
Proof.
  split; [ reflexivity | ].
  exact (proj2 (fresh_draft_is_not_submitted
                  (initialWorld DEFAULT_SCRIPT_URL) "cp-002" serverRoomB2
                  (readingAt serverRoomB2 (Some 20)) (clock 9 30) eq_refl)).
Defined.

(** X4 at the server room, with officer OFF-001. *)
Lemma somsak_scans_the_server_room :
  lookup "cp-002" (initialWorld DEFAULT_SCRIPT_URL) = Some serverRoomB2
  /\ "OFF-001"%string <> ""%string
  /\ find (fun u => String.eqb (user_id u) "OFF-001")
          (officers (app (initialWorld DEFAULT_SCRIPT_URL))) = Some somsak
  /\ logs (app (handleFinalSubmit handleScanComplete
                  (selectOfficer "OFF-001"
                     (scanned (readingAt serverRoomB2 (Some 20)) (clock 9 30)
                              "cp-002" (initialWorld DEFAULT_SCRIPT_URL)))))
     = [recordOf (draftOf serverRoomB2 (readingAt serverRoomB2 (Some 20))
                          (clock 9 30))
                 "Somsak Jaidee (OFF-001)"
                 (snd (verdictOf serverRoomB2 (readingAt serverRoomB2 (Some 20))
                                 (clock 9 30)))
                 false].
Proof.
  assert (Hoid : "OFF-001"%string <> ""%string) by discriminate.
  split; [ reflexivity | split; [ exact Hoid | split; [ reflexivity | ] ] ].
  exact (proj1 (scan_select_submit
                  (initialWorld DEFAULT_SCRIPT_URL) "cp-002" serverRoomB2
                  (readingAt serverRoomB2 (Some 20)) (clock 9 30)
                  "OFF-001" somsak eq_refl Hoid eq_refl)).
Defined.

(** X6 on a link to the main gate. *)
Lemma link_to_the_main_gate :
  lookup "cp-001" (initialWorld "") = Some mainEntranceGate
  /\ "cp-001"%string <> ""%string
  /\ hasAutoScanned (scanner (initialWorld "")) = false
  /\ pendingLog (scanner (autoScan true
                            (Resolved (readingAt mainEntranceGate (Some 12)))
                            (clock 8 0) true
                            (deepLink (Some "cp-001"%string) (initialWorld ""))))
     = Some (draftOf mainEntranceGate (readingAt mainEntranceGate (Some 12))
                     (clock 8 0)).
Proof.
  assert (Hid : "cp-001"%string <> ""%string) by discriminate.
  split; [ reflexivity | split; [ exact Hid | split; [ reflexivity | ] ] ].
  destruct (deep_link_starts_one_scan
              (initialWorld "") "cp-001" mainEntranceGate
              (readingAt mainEntranceGate (Some 12)) (clock 8 0)
              eq_refl Hid eq_refl)
    as (_ & _ & _ & Hpending & _).
  exact Hpending.
Defined.

(** X7 on a link to cp-999. *)
Lemma link_to_an_unknown_checkpoint :
  lookup "cp-999" (initialWorld "") = None
  /\ "cp-999"%string <> ""%string
  /\ initialScanId (app (initialWorld "")) = None
  /\ app (deepLink (Some "cp-999"%string) (initialWorld ""))
     = app (initialWorld "").
Proof.
  assert (Hid : "cp-999"%string <> ""%string) by discriminate.
  split; [ reflexivity | split; [ exact Hid | split; [ reflexivity | ] ] ].
  exact (proj1 (deep_link_to_unknown_checkpoint
                  (initialWorld "") "cp-999" eq_refl Hid eq_refl)).
Defined.

(** X9 on a pull that brings one record of the sheet. *)
Lemma pull_of_one_log_after_confirmation :
  GOOGLE_SCRIPT_URL (awaitingConfirmation "OFF-001") <> ""%string
  /\ logs (app (loadCloudData (mkCloudData [rejectedLog] [] []) (clock 9 31)
                  (handleScanComplete gateDraft
                                      (awaitingConfirmation "OFF-001"))))
     = [rejectedLog].
Proof.
  assert (Hurl : GOOGLE_SCRIPT_URL (awaitingConfirmation "OFF-001") <> ""%string)
    by discriminate.
  split; [ exact Hurl | ].
  apply (proj1 (pull_after_confirmation
                  gateDraft (mkCloudData [rejectedLog] [] []) (clock 9 31)
                  (awaitingConfirmation "OFF-001") Hurl)).
  discriminate.
Defined.

(** X10 on the removal of officer OFF-002, followed by an empty
    pull. *)
Lemma mana_is_removed :
  GOOGLE_SCRIPT_URL (initialWorld DEFAULT_SCRIPT_URL) <> ""%string
  /\ posted (handleRemoveOfficer "OFF-002" true emptyCloud (clock 8 0)
                                 (initialWorld DEFAULT_SCRIPT_URL))
     = [REMOVE_OFFICER "OFF-002"].
Proof.
  assert (Hurl : GOOGLE_SCRIPT_URL (initialWorld DEFAULT_SCRIPT_URL) <> ""%string)
    by discriminate.
  split; [ exact Hurl | ].
  exact (proj1 (remove_officer_then_pull
                  "OFF-002" emptyCloud (clock 8 0)
                  (initialWorld DEFAULT_SCRIPT_URL) Hurl)).
Defined.

(** X11 on officer OFF-003, offline. *)
Lemma wichai_comes_and_goes :
  GOOGLE_SCRIPT_URL (initialWorld "") = ""%string
  /\ (forall o, In o (officers (app (initialWorld ""))) ->
                user_id o <> user_id wichai)
  /\ handleRemoveOfficer (user_id wichai) true emptyCloud (clock 8 1)
       (handleAddOfficer wichai emptyCloud (clock 8 0) (initialWorld ""))
     = initialWorld "".
Proof.
  assert (Hfresh : forall o, In o (officers (app (initialWorld ""))) ->
                             user_id o <> user_id wichai).
  { intros o [<- | [<- | []]]; discriminate. }
  split; [ reflexivity | split; [ exact Hfresh | ] ].
  exact (add_then_remove_officer_offline
           wichai emptyCloud (clock 8 0) emptyCloud (clock 8 1)
           (initialWorld "") eq_refl Hfresh).
Defined.

(** X12 on the side gate. *)
Lemma side_gate_resolves :
  cloud_checkpoints emptyCloud = []
  /\ lookup (cp_id sideGate) (initialWorld "") = None
  /\ lookup (cp_id sideGate)
            (handleAddCheckpoint sideGate emptyCloud (clock 8 0)
                                 (initialWorld ""))
     = Some sideGate.
Proof.
  split; [ reflexivity | split; [ reflexivity | ] ].
  exact (proj2 (added_checkpoint_resolves
                  sideGate emptyCloud (clock 8 0) (initialWorld "") eq_refl)
               eq_refl).
Defined.

(** X15 on a log of one rejected location. *)
Lemma one_rejected_location :
  validScans [rejectedLog] = 0%nat
  /\ (0 < invalidScans [rejectedLog])%nat
  /\ nth_error (chartData [rejectedLog]) 0
     = Some ("Invalid/Distance"%string, invalidScans [rejectedLog]).
Proof.
  assert (Hi : (0 < invalidScans [rejectedLog])%nat) by (cbv; lia).
  split; [ reflexivity | split; [ exact Hi | ] ].
  exact (proj1 (rejected_slice_in_the_first_colour [rejectedLog] eq_refl Hi)).
Defined.

(** X16 at the server room, with an accuracy of 100.2 meters. *)
Lemma accuracy_of_100_2_at_the_server_room :
  lookup "cp-002" (initialWorld "") = Some serverRoomB2
  /\ fst (timeCheck (schedule serverRoomB2) (clock 9 30)) = TIME_VALID
  /\ accuracy (readingAt serverRoomB2 (Some 100.2)) = Some 100.2
  /\ exists draft,
       pendingLog (scanner (scanned (readingAt serverRoomB2 (Some 100.2))
                                    (clock 9 30) "cp-002" (initialWorld "")))
       = Some draft
       /\ (showsWeakSignal draft = true <-> 100.5 <= 100.2)
       /\ (note draft = Some (WeakGPS 100.2) <-> 100 < 100.2)
       /\ (100 < 100.2 -> status draft = VALID).
Proof.
  split; [ reflexivity | split; [ reflexivity | split; [ reflexivity | ] ] ].
  exact (weak_signal_line_from_100_5
           (initialWorld "") "cp-002" serverRoomB2
           (readingAt serverRoomB2 (Some 100.2)) (clock 9 30) 100.2
           eq_refl eq_refl eq_refl).
Defined.

(** X17 on 08:00 without a tolerance, at 08:10. *)
Lemma eight_without_tolerance :
  type eightNoTolerance = FIXED_TIME
  /\ fixedTimes eightNoTolerance = Some ["08:00"%string]
  /\ wellFormed ["08:00"%string]
  /\ (toleranceMinutes eightNoTolerance = None
      \/ exists tolerance, toleranceMinutes eightNoTolerance = Some tolerance
                           /\ (tolerance == 0)%Q)
  /\ (fst (timeCheck (Some eightNoTolerance) (clock 8 10)) = TIME_VALID
      <-> withinTolerance ["08:00"%string] (clock 8 10) 10%Q).
Proof.
  assert (Htol : toleranceMinutes eightNoTolerance = None
                 \/ exists tolerance,
                      toleranceMinutes eightNoTolerance = Some tolerance
                      /\ (tolerance == 0)%Q)
    by (left; reflexivity).
  split; [ reflexivity | split; [ reflexivity | ] ].
  split; [ exact wellFormed_0800 | split; [ exact Htol | ] ].
  exact (default_tolerance_is_ten
           eightNoTolerance ["08:00"%string] (clock 8 10)
           eq_refl eq_refl wellFormed_0800 Htol).
Defined.

(** X18 on the post whose time input has been cleared. *)
Lemma cleared_post_admits_no_scan :
  lookup "cp-1700000000000" clearedWorld = Some clearedPost
  /\ schedule clearedPost = Some (formSchedule FIXED_TIME 90%Q [""%string])
  /\ Forall (fun t => t = ""%string) [""%string]
  /\ exists draft,
       pendingLog (scanner (scanned (readingAt clearedPost (Some 5))
                                    (clock 8 0) "cp-1700000000000"
                                    clearedWorld))
       = Some draft
       /\ status draft = INVALID_TIME.
Proof.
  assert (He : Forall (fun t => t = ""%string) [""%string])
    by (constructor; [ reflexivity | constructor ]).
  split; [ reflexivity | split; [ reflexivity | split; [ exact He | ] ] ].
  exact (proj2 (schedule_without_times_admits_no_scan
                  clearedWorld "cp-1700000000000" clearedPost
                  (formSchedule FIXED_TIME 90%Q [""%string]) [""%string]
                  (readingAt clearedPost (Some 5)) (clock 8 0)
                  eq_refl eq_refl eq_refl eq_refl He)).
Defined.

(** X24 at the latitude of the main gate, on the central meridian of
    zone 47. *)
Lemma grid_reference_in_zone_47 :
  -80 <= 13.7563 <= 84
  /\ latLonToUtm 0 (IZR (6 * 47 - 183)) = "Zone 47 | E: 500000 N: 0"%string.
Proof.
  assert (H : -80 <= 13.7563 <= 84) by lra.
  split; [ exact H | ].
  exact (proj2 (utm_on_a_central_meridian 13.7563 47 H)).
Defined.

End FurtherRuns.

(** ** The distance as it runs *)

Module DoubleFacts.

Import Floats.
Local Open Scope float_scope.

(** C7.  The distance of the two opposite points (8, 0) and (-8, 180):
    with the sine and cosine of 8 degrees and of a right angle as the
    libraries return them, the sum under the square roots is above 1,
    the square root of 1 minus this sum is NaN, and so is the distance.
    The distance then equals no number, not even the distance of the
    same two points in the other order, where the claim has the two
    equal. *)
Theorem opposite_points_have_no_distance (M : Double.Math) :
  Double.sin M (-0x1.1df46a2529d39p-3) = -0x1.1d06c968d9e19p-3 ->
  Double.cos M 0x1.1df46a2529d39p-3 = 0x1.fb046a930947ap-1 ->
  Double.cos M (-0x1.1df46a2529d39p-3) = 0x1.fb046a930947ap-1 ->
  Double.sin M 0x1.921fb54442d18p+0 = 1 ->
  (forall y, Double.atan2 M y nan = nan) ->
  is_nan (Double.calculateDistance M Double.north8 Double.south8) = true
  /\ (Double.calculateDistance M Double.north8 Double.south8
      =? Double.calculateDistance M Double.south8 Double.north8) = false
  /\ forall d,
       (Double.calculateDistance M Double.north8 Double.south8 =? d) = false.
Proof.
  intros Hs Hc Hc' Hs1 Hnan.
  assert (E : Double.calculateDistance M Double.north8 Double.south8 = nan).
  { unfold Double.calculateDistance.
    vm_compute in Hs, Hc, Hc', Hs1.
    vm_compute; rewrite Hs, Hc, Hc', Hs1.
    vm_compute; now rewrite Hnan. }
  assert (N : forall d, (nan =? d) = false)
    by (intros d; now rewrite FloatAxioms.eqb_spec).
  rewrite E; repeat split; apply N.
Qed.

(** C7 on the tabulated library. *)
Lemma opposite_points_on_the_tabulated_library :
  Double.sin Double.tabulated (-0x1.1df46a2529d39p-3) = -0x1.1d06c968d9e19p-3
  /\ Double.cos Double.tabulated 0x1.1df46a2529d39p-3 = 0x1.fb046a930947ap-1
  /\ Double.cos Double.tabulated (-0x1.1df46a2529d39p-3)
     = 0x1.fb046a930947ap-1
  /\ Double.sin Double.tabulated 0x1.921fb54442d18p+0 = 1
  /\ (forall y, Double.atan2 Double.tabulated y nan = nan)
  /\ is_nan (Double.calculateDistance Double.tabulated
                                      Double.north8 Double.south8) = true.
Proof.
  assert (Hnan : forall y, Double.atan2 Double.tabulated y nan = nan)
    by (intros y; reflexivity).
  repeat (split; [ first [ reflexivity | exact Hnan ] | ]).
  exact (proj1 (opposite_points_have_no_distance
                  Double.tabulated eq_refl eq_refl eq_refl eq_refl Hnan)).
Defined.

End DoubleFacts.
